(** * Text-Summarizer REST API: a shallow embedding of [ml-rest-api/app.py]

    The Flask application keeps one table of [Summary] rows and exposes six
    request handlers.  The handlers are embedded as functions from the table
    (and the request) to a response and the table after the request.

    What the handlers call but do not define is modelled as follows.
    - The summarization pipeline is a black box: the module-level global
      [summarizer] is a Section variable holding a pipeline object, whose
      call either returns the generated text or raises.
    - [datetime.utcnow()] is an input of the request that reads it.
    - Python's [str.split()], [len], [/], [*] and [round] follow CPython:
      a [str] is its list of code points, a [float] is an IEEE binary64
      value ([SpecFloat], precision 53).
    - The table is the list of its rows in rowid order.  The engine
      answers the queries of the CRUD handlers (only [health_check]
      probes it), and fails where the data makes it fail: a key that does
      not fit its 64-bit INTEGER and a text that has no UTF-8 encoding
      cannot be bound.
    - A request body is taken where [request.get_json()] has returned it,
      as JSON [null] or as an object whose [text] and [title], when
      present, are strings and whose lengths are integers. *)

From Stdlib Require Import ZArith NArith List Bool String Ascii Lia.
From Stdlib Require Import Permutation Sorted.
From Stdlib Require Import Floats.SpecFloat.
Import ListNotations.

Open Scope Z_scope.

(* ================================================================= *)
(** ** Python built-ins used by the handlers *)

Module Py.

(** A Python [str]: the sequence of its Unicode code points. *)
Definition str : Type := list N.

(** A literal of the source, written as a Rocq string of ASCII characters. *)
Definition lit (s : string) : str := map N_of_ascii (list_ascii_of_string s).

(** [str.isspace] on one code point: the code points CPython classifies as
    whitespace, which are the separators of [str.split()]. *)
Definition isspace (c : N) : bool :=
  (((0x09 <=? c) && (c <=? 0x0D)) || ((0x1C <=? c) && (c <=? 0x20))
   || (c =? 0x85) || (c =? 0xA0) || (c =? 0x1680)
   || ((0x2000 <=? c) && (c <=? 0x200A))
   || (c =? 0x2028) || (c =? 0x2029) || (c =? 0x202F) || (c =? 0x205F)
   || (c =? 0x3000))%N.

(** [word :: rest] unless the word is empty. *)
Definition flush (word : list N) (rest : list str) : list str :=
  match word with
  | [] => rest
  | _ :: _ => rev word :: rest
  end.

(** [s.split()] with no separator: the maximal runs of characters that are
    not whitespace, in order.  [word] holds the current run, reversed. *)
Fixpoint split_from (word : list N) (s : str) : list str :=
  match s with
  | [] => flush word []
  | c :: s' =>
      if isspace c then flush word (split_from [] s')
      else split_from (c :: word) s'
  end.

Definition split (s : str) : list str := split_from [] s.

Definition len {A : Type} (l : list A) : Z := Z.of_nat (List.length l).

(** Exceptions, as far as the handlers tell them apart: [str(e)] is all
    they read.  [UnicodeEncodeError c first last] is the error of the
    UTF-8 codec on the run of surrogates at positions [first] to [last],
    which starts with the character [c]. *)
Inductive exn : Type :=
| ZeroDivisionError
| OverflowError
| UnicodeEncodeError (c : N) (first last : N)
| Exception (msg : str).

(** The digits of a number in base 10, and in base 16 in lower case. *)
Fixpoint digits (d : Decimal.uint) : str :=
  match d with
  | Decimal.Nil => []
  | Decimal.D0 d => 48%N :: digits d
  | Decimal.D1 d => 49%N :: digits d
  | Decimal.D2 d => 50%N :: digits d
  | Decimal.D3 d => 51%N :: digits d
  | Decimal.D4 d => 52%N :: digits d
  | Decimal.D5 d => 53%N :: digits d
  | Decimal.D6 d => 54%N :: digits d
  | Decimal.D7 d => 55%N :: digits d
  | Decimal.D8 d => 56%N :: digits d
  | Decimal.D9 d => 57%N :: digits d
  end.

Fixpoint hex_digits (d : Hexadecimal.uint) : str :=
  match d with
  | Hexadecimal.Nil => []
  | Hexadecimal.D0 d => 48%N :: hex_digits d
  | Hexadecimal.D1 d => 49%N :: hex_digits d
  | Hexadecimal.D2 d => 50%N :: hex_digits d
  | Hexadecimal.D3 d => 51%N :: hex_digits d
  | Hexadecimal.D4 d => 52%N :: hex_digits d
  | Hexadecimal.D5 d => 53%N :: hex_digits d
  | Hexadecimal.D6 d => 54%N :: hex_digits d
  | Hexadecimal.D7 d => 55%N :: hex_digits d
  | Hexadecimal.D8 d => 56%N :: hex_digits d
  | Hexadecimal.D9 d => 57%N :: hex_digits d
  | Hexadecimal.Da d => 97%N :: hex_digits d
  | Hexadecimal.Db d => 98%N :: hex_digits d
  | Hexadecimal.Dc d => 99%N :: hex_digits d
  | Hexadecimal.Dd d => 100%N :: hex_digits d
  | Hexadecimal.De d => 101%N :: hex_digits d
  | Hexadecimal.Df d => 102%N :: hex_digits d
  end.

(** [str(e)]. *)
Definition str_of_exn (e : exn) : str :=
  match e with
  | ZeroDivisionError => lit "division by zero"
  | OverflowError => lit "Python int too large to convert to SQLite INTEGER"
  | UnicodeEncodeError c first last =>
      if (first =? last)%N then
        lit "'utf-8' codec can't encode character '\u" ++ hex_digits (N.to_hex_uint c)
        ++ lit "' in position " ++ digits (N.to_uint first)
        ++ lit ": surrogates not allowed"
      else
        lit "'utf-8' codec can't encode characters in position "
        ++ digits (N.to_uint first) ++ lit "-" ++ digits (N.to_uint last)
        ++ lit ": surrogates not allowed"
  | Exception msg => msg
  end.

(** A computation that returns a value or raises. *)
Inductive result (A : Type) : Type :=
| Return (a : A)
| Raise (e : exn).
Arguments Return {A} a.
Arguments Raise {A} e.

Definition bind {A B : Type} (m : result A) (k : A -> result B) : result B :=
  match m with
  | Return a => k a
  | Raise e => Raise e
  end.

(** *** The UTF-8 codec *)

(** A surrogate code point: it has no UTF-8 encoding. *)
Definition is_surrogate (c : N) : bool := ((0xD800 <=? c) && (c <=? 0xDFFF))%N.

(** The number of surrogates a string starts with. *)
Fixpoint surrogate_prefix (s : str) : N :=
  match s with
  | [] => 0%N
  | c :: s' => if is_surrogate c then N.succ (surrogate_prefix s') else 0%N
  end.

(** [s.encode('utf-8')] as far as it can fail: the codec raises on the
    first run of surrogates, from position [pos] on. *)
Fixpoint encode_from (pos : N) (s : str) : result unit :=
  match s with
  | [] => Return tt
  | c :: s' =>
      if is_surrogate c
      then Raise (UnicodeEncodeError c pos (pos + surrogate_prefix s')%N)
      else encode_from (N.succ pos) s'
  end.

Definition encode_utf8 (s : str) : result unit := encode_from 0%N s.

(** *** Floats *)

Definition prec : Z := 53.
Definition emax : Z := 1024.
Definition float : Type := spec_float.

(** [float(n)] for an int. *)
Definition float_of_int (n : Z) : float := binary_normalize prec emax n 0 false.

(** [x * y] on floats. *)
Definition fmul (x y : float) : float := SFmul prec emax x y.

(** [a / b] on ints: the correctly rounded quotient, or [ZeroDivisionError]. *)
Definition truediv (a b : Z) : result float :=
  match b with
  | Z0 => Raise ZeroDivisionError
  | Zpos pb =>
      match a with
      | Z0 => Return (S754_zero false)
      | Zpos pa => Return (SFdiv prec emax (S754_finite false pa 0) (S754_finite false pb 0))
      | Zneg pa => Return (SFdiv prec emax (S754_finite true pa 0) (S754_finite false pb 0))
      end
  | Zneg pb =>
      match a with
      | Z0 => Return (S754_zero true)
      | Zpos pa => Return (SFdiv prec emax (S754_finite false pa 0) (S754_finite true pb 0))
      | Zneg pa => Return (SFdiv prec emax (S754_finite true pa 0) (S754_finite true pb 0))
      end
  end.

(** The integer nearest to [num / den] ([den > 0]), ties to the even one. *)
Definition round_half_even (num den : Z) : Z :=
  let q := num / den in
  let r := num mod den in
  match 2 * r ?= den with
  | Lt => q
  | Gt => q + 1
  | Eq => if Z.even q then q else q + 1
  end.

(** [round(x, ndigits)] on a float: the exact value of [x] is rounded to the
    nearest multiple of [10 ** -ndigits] (ties to even), and the float
    nearest to that decimal is returned; zeros, infinities and NaN are
    returned as they are. *)
Definition round (x : float) (ndigits : Z) : float :=
  match x with
  | S754_finite s m e =>
      let up := 10 ^ Z.max ndigits 0 in
      let down := 10 ^ Z.max (- ndigits) 0 in
      let k := round_half_even (Zpos m * 2 ^ Z.max e 0 * up)
                               (2 ^ Z.max (- e) 0 * down) in
      match k with
      | Zpos k' =>
          SFdiv prec emax (S754_finite s (k' * Z.to_pos down) 0)
                          (S754_finite false (Z.to_pos up) 0)
      | _ => S754_zero s
      end
  | _ => x
  end.

End Py.

Import Py.

Declare Scope py_scope.
Delimit Scope py_scope with py.
Notation "x <- m ;; k" := (bind m (fun x => k))
  (at level 61, m at next level, right associativity) : py_scope.
Open Scope py_scope.

(** Words as the specification counts them: a word starts at every
    character that is not whitespace and is first or follows whitespace. *)
Fixpoint word_starts (after_space : bool) (s : str) : nat :=
  match s with
  | [] => O
  | c :: s' =>
      if isspace c then word_starts true s'
      else (if after_space then S (word_starts false s') else word_starts false s')
  end.

Definition word_count (s : str) : Z := Z.of_nat (word_starts true s).

(* ================================================================= *)
(** ** The data model *)

(** A [datetime] value: microseconds since the epoch, naive UTC. *)
Definition datetime : Type := Z.

(** [class Summary(db.Model)]: one row of the table. *)
Record Summary : Type := mkSummary {
  id : Z;
  original_text : str;
  summary_text : str;
  created_at : datetime;
  updated_at : datetime;
  title : str;
  compression_ratio : float
}.

(** Attribute assignment on a loaded row ([summary.title = ...]). *)
Definition set_original_text (self : Summary) (v : str) : Summary :=
  mkSummary (id self) v (summary_text self) (created_at self) (updated_at self)
            (title self) (compression_ratio self).

Definition set_summary_text (self : Summary) (v : str) : Summary :=
  mkSummary (id self) (original_text self) v (created_at self) (updated_at self)
            (title self) (compression_ratio self).

Definition set_compression_ratio (self : Summary) (v : float) : Summary :=
  mkSummary (id self) (original_text self) (summary_text self) (created_at self)
            (updated_at self) (title self) v.

Definition set_title (self : Summary) (v : str) : Summary :=
  mkSummary (id self) (original_text self) (summary_text self) (created_at self)
            (updated_at self) v (compression_ratio self).

Definition set_updated_at (self : Summary) (v : datetime) : Summary :=
  mkSummary (id self) (original_text self) (summary_text self) (created_at self)
            v (title self) (compression_ratio self).

(** JSON values of the responses.  [JIso t] is the string
    [t.isoformat()]. *)
#[local] Set Warnings "-register-all".
Inductive json : Type :=
| JInt (n : Z)
| JFloat (x : float)
| JStr (s : str)
| JIso (t : datetime)
| JBool (b : bool)
| JArr (items : list json)
| JObj (fields : list (string * json)).

(** [d[key]] on a JSON object. *)
Fixpoint assoc (key : string) (fields : list (string * json)) : option json :=
  match fields with
  | [] => None
  | (k, v) :: rest => if String.eqb key k then Some v else assoc key rest
  end.

Definition field (key : string) (j : json) : option json :=
  match j with
  | JObj fields => assoc key fields
  | _ => None
  end.

(** [Summary.to_dict]. *)
Definition to_dict (self : Summary) : json :=
  JObj [ ("id", JInt (id self));
         ("original_text", JStr (original_text self));
         ("summary_text", JStr (summary_text self));
         ("created_at", JIso (created_at self));
         ("updated_at", JIso (updated_at self));
         ("title", JStr (title self));
         ("compression_ratio", JFloat (compression_ratio self)) ]%string.

(** The table: its rows in rowid order. *)
Definition table : Type := list Summary.

(** [Summary.query.get(summary_id)]: the row with that primary key. *)
Definition query_get (tbl : table) (summary_id : Z) : option Summary :=
  find (fun r => id r =? summary_id) tbl.

(** A key the engine can hold: a signed 64-bit integer. *)
Definition fits (k : Z) : bool := (- 2 ^ 63 <=? k) && (k <? 2 ^ 63).

(** The engine binds an int parameter: one that does not fit raises. *)
Definition bind_key (k : Z) : result unit :=
  if fits k then Return tt else Raise OverflowError.

(** The engine binds a [str] parameter as UTF-8: one with a surrogate
    raises. *)
Definition bind_text (s : str) : result unit := encode_utf8 s.

(** A text the engine can bind. *)
Definition encodable (s : str) : bool := forallb (fun c => negb (is_surrogate c)) s.

(** What [Summary.query.get_or_404(summary_id)] comes to. *)
Inductive lookup : Type :=
| found (summary : Summary)
| abort_404
| uncaught (e : exn).

(** [Summary.query.get_or_404(summary_id)].  The SELECT binds the key, so
    a key that does not fit raises where no row is found; no row the
    engine stores has such a key. *)
Definition get_or_404 (tbl : table) (summary_id : Z) : lookup :=
  match query_get tbl summary_id with
  | Some summary => found summary
  | None =>
      match bind_key summary_id with
      | Return _ => abort_404
      | Raise e => uncaught e
      end
  end.

(** The rowid the engine gives to the next inserted row: one more than the
    largest in the table, 1 in an empty table. *)
Definition next_id (tbl : table) : Z :=
  1 + fold_right Z.max 0 (map id tbl).

(** Sequencing of computations that may raise. *)
Definition and_then {A : Type} (m : result unit) (k : result A) : result A :=
  match m with
  | Return _ => k
  | Raise e => Raise e
  end.

(** [db.session.add(new_summary); db.session.commit()].  The INSERT binds
    the texts in column order and raises at the first it cannot bind, with
    nothing stored; otherwise the engine assigns the id, and the column
    defaults read the clock, [created_at] first. *)
Definition insert (tbl : table) (original summary ttl : str) (ratio : float)
    (t_created t_updated : datetime) : result (Summary * table) :=
  and_then (bind_text original)
    (and_then (bind_text summary)
      (and_then (bind_text ttl)
        (let row := mkSummary (next_id tbl) original summary t_created t_updated
                              ttl ratio in
         Return (row, tbl ++ [row])))).

(** The table after [db.session.commit()] has written the attribute
    assignments on a loaded row. *)
Definition commit_update (tbl : table) (summary : Summary) : table :=
  map (fun r => if id r =? id summary then summary else r) tbl.

(** The bind of one text column of an UPDATE: only a column whose value
    has changed is in the statement. *)
Definition bind_changed (old new : str) : result unit :=
  if list_eq_dec N.eq_dec old new then Return tt else bind_text new.

(** The UPDATE that [db.session.commit()] emits for the assignments that
    turned the loaded row [old] into [new]: it raises at the first changed
    text it cannot bind, with nothing stored. *)
Definition flush_update (old new : Summary) : result unit :=
  and_then (bind_changed (original_text old) (original_text new))
    (and_then (bind_changed (summary_text old) (summary_text new))
      (bind_changed (title old) (title new))).

(** [db.session.delete(summary); db.session.commit()]. *)
Definition commit_delete (tbl : table) (summary : Summary) : table :=
  filter (fun r => negb (id r =? id summary)) tbl.

(** Insertion of a row into rows ordered by [created_at] descending, after
    the rows created at the same time. *)
Fixpoint insert_desc (r : Summary) (rows : list Summary) : list Summary :=
  match rows with
  | [] => [r]
  | r' :: rest =>
      if created_at r' <? created_at r then r :: rows
      else r' :: insert_desc r rest
  end.

(** [Summary.query.order_by(Summary.created_at.desc()).all()]. *)
Definition order_by_created_at_desc (tbl : table) : list Summary :=
  fold_left (fun acc r => insert_desc r acc) tbl [].

(** The body of a request as [request.get_json()] returns it: a JSON
    object, of which the handlers read four keys.  The strings are any
    JSON strings, lone surrogates included. *)
Record body : Type := mkBody {
  j_text : option str;
  j_max_length : option Z;
  j_min_length : option Z;
  j_title : option str
}.

(** [data.get(key, default)]. *)
Definition dict_get {A : Type} (entry : option A) (default : A) : A :=
  match entry with
  | Some v => v
  | None => default
  end.

(** What a view returns: a JSON document made by [jsonify], or the page
    the framework makes for [abort(404)] and for an exception no handler
    catches. *)
Inductive payload : Type :=
| jsonify (j : json)
| error_page.

Record response : Type := mkResponse {
  content : payload;
  status : Z
}.

(** The state of the database engine, as [health_check] probes it. *)
Inductive engine : Type :=
| engine_up
| connect_raises
| execute_raises.

Definition engine_connect (e : engine) : result unit :=
  match e with
  | connect_raises => Raise (Exception (lit "unable to open database file"))
  | _ => Return tt
  end.

Definition engine_execute (e : engine) : result unit :=
  match e with
  | execute_raises => Raise (Exception (lit "database is locked"))
  | _ => Return tt
  end.

(** A summarization pipeline object, called as
    [summarizer(text, max_length=..., min_length=...)[0]['summary_text']]:
    the generated text, or the exception the call raises. *)
Definition pipeline : Type := str -> Z -> Z -> result str.

(** The call of a global that holds a pipeline, or [None]. *)
Definition call (f : option pipeline) (text : str) (max_length min_length : Z) : result str :=
  match f with
  | Some run => run text max_length min_length
  | None => Raise (Exception (lit "'NoneType' object is not callable"))
  end.

(** [x is not None]. *)
Definition is_not_None {A : Type} (x : option A) : bool :=
  match x with
  | Some _ => true
  | None => false
  end.

(* ================================================================= *)
(** ** The request handlers *)

Section Handlers.

(** The module-level [summarizer], bound by [pipeline("summarization", ...)]
    when the application is imported. *)
Variable summarizer : option pipeline.

(** [round(len(generated_summary.split()) / len(text.split()) * 100, 2)]. *)
Definition ratio_of (generated_summary text : str) : result float :=
  q <- truediv (len (split generated_summary)) (len (split text)) ;;
  Return (round (fmul q (float_of_int 100)) 2).

(** [POST /api/summaries/].  [data] is [None] when the body is not a
    JSON object the handler can read (JSON [null]). *)
Definition create_summary (tbl : table) (data : option body)
    (t_created t_updated : datetime) : response * table :=
  match data with
  | None => (mkResponse (jsonify (JObj [("error", JStr (lit "No text provided"))]%string)) 400, tbl)
  | Some data =>
      match j_text data with
      | None => (mkResponse (jsonify (JObj [("error", JStr (lit "No text provided"))]%string)) 400, tbl)
      | Some text =>
          if len (split text) <? 10 then
            (mkResponse (jsonify (JObj [("error", JStr (lit "this text is too short to summarize"))]%string)) 200, tbl)
          else
            let attempt :=
              generated_summary <- call summarizer text (dict_get (j_max_length data) 130)
                                                   (dict_get (j_min_length data) 30) ;;
              compression_ratio <- ratio_of generated_summary text ;;
              insert tbl text generated_summary
                     (dict_get (j_title data) (lit "Untitled"))
                     compression_ratio t_created t_updated in
            match attempt with
            | Return (new_summary, tbl') =>
                (mkResponse (jsonify (to_dict new_summary)) 201, tbl')
            | Raise e =>
                (mkResponse (jsonify (JObj [("error", JStr (str_of_exn e))]%string)) 500, tbl)
            end
      end
  end.

(** [GET /api/summaries]. *)
Definition get_summaries (tbl : table) : response :=
  let summaries := order_by_created_at_desc tbl in
  mkResponse (jsonify (JArr (map to_dict summaries))) 200.

(** [GET /api/summaries/<int:summary_id>]. *)
Definition get_summary (tbl : table) (summary_id : Z) : response :=
  match get_or_404 tbl summary_id with
  | abort_404 => mkResponse error_page 404
  | uncaught _ => mkResponse error_page 500
  | found summary => mkResponse (jsonify (to_dict summary)) 200
  end.

(** The [if 'text' in data:] block of [update_summary]: the attribute
    assignments on the loaded row, or the exception the [try] catches. *)
Definition replace_text (summary : Summary) (data : body) : result Summary :=
  match j_text data with
  | None => Return summary
  | Some text =>
      generated_summary <- call summarizer text (dict_get (j_max_length data) 130)
                                           (dict_get (j_min_length data) 30) ;;
      let summary := set_original_text summary text in
      let summary := set_summary_text summary generated_summary in
      ratio <- ratio_of generated_summary text ;;
      Return (set_compression_ratio summary ratio)
  end.

(** [PUT /api/summaries/<int:summary_id>].  [now] is the clock read by
    [summary.updated_at = datetime.utcnow()].  With [data = None] the test
    ['text' in data] raises outside the [try], and so does a commit that
    cannot bind a text: nothing catches them. *)
Definition update_summary (tbl : table) (summary_id : Z) (data : option body)
    (now : datetime) : response * table :=
  match get_or_404 tbl summary_id with
  | abort_404 => (mkResponse error_page 404, tbl)
  | uncaught _ => (mkResponse error_page 500, tbl)
  | found loaded =>
      match data with
      | None => (mkResponse error_page 500, tbl)
      | Some data =>
          match replace_text loaded data with
          | Raise e =>
              (mkResponse (jsonify (JObj [("error", JStr (str_of_exn e))]%string)) 500, tbl)
          | Return summary =>
              let summary :=
                match j_title data with
                | Some t => set_title summary t
                | None => summary
                end in
              let summary := set_updated_at summary now in
              match flush_update loaded summary with
              | Raise _ => (mkResponse error_page 500, tbl)
              | Return _ =>
                  (mkResponse (jsonify (to_dict summary)) 200, commit_update tbl summary)
              end
          end
      end
  end.

(** [DELETE /api/summaries/<int:summary_id>]. *)
Definition delete_summary (tbl : table) (summary_id : Z) : response * table :=
  match get_or_404 tbl summary_id with
  | abort_404 => (mkResponse error_page 404, tbl)
  | uncaught _ => (mkResponse error_page 500, tbl)
  | found summary =>
      (mkResponse (jsonify (JObj [("message", JStr (lit "Summary deleted successfully"))]%string)) 200,
       commit_delete tbl summary)
  end.

(** [GET /api/health].  [cuda] is the answer of
    [torch.cuda.is_available()]. *)
Definition health_check (e : engine) (cuda : bool) : response :=
  let db_status :=
    match (_ <- engine_connect e ;; engine_execute e) with
    | Return _ => true
    | Raise _ => false
    end in
  mkResponse
    (jsonify (JObj [ ("status", JStr (lit "healthy"));
                     ("model_loaded", JBool (is_not_None summarizer));
                     ("gpu_available", JBool cuda);
                     ("database_connected", JBool db_status) ]%string))
    200.

(** *** Sequences of requests *)

Inductive request : Type :=
| POST_summaries (data : option body) (t_created t_updated : datetime)
| GET_summaries
| GET_summary (summary_id : Z)
| PUT_summary (summary_id : Z) (data : option body) (now : datetime)
| DELETE_summary (summary_id : Z).

Definition handle (tbl : table) (req : request) : response * table :=
  match req with
  | POST_summaries data t_created t_updated => create_summary tbl data t_created t_updated
  | GET_summaries => (get_summaries tbl, tbl)
  | GET_summary summary_id => (get_summary tbl summary_id, tbl)
  | PUT_summary summary_id data now => update_summary tbl summary_id data now
  | DELETE_summary summary_id => delete_summary tbl summary_id
  end.

(** The table after the requests, served in order. *)
Fixpoint serve (tbl : table) (reqs : list request) : table :=
  match reqs with
  | [] => tbl
  | req :: rest => serve (snd (handle tbl req)) rest
  end.

(** The requests with their responses, in order. *)
Fixpoint responses (tbl : table) (reqs : list request) : list (request * response) :=
  match reqs with
  | [] => []
  | req :: rest => (req, fst (handle tbl req)) :: responses (snd (handle tbl req)) rest
  end.

End Handlers.

(** The clock readings of a request, in the order they are taken. *)
Definition clock_readings (req : request) : list datetime :=
  match req with
  | POST_summaries _ t_created t_updated => [t_created; t_updated]
  | PUT_summary _ _ now => [now]
  | _ => []
  end.

(** The clock does not run backwards over a sequence of requests. *)
Definition clock_monotone (reqs : list request) : Prop :=
  Sorted Z.le (flat_map clock_readings reqs).

Definition is_delete (req : request) : bool :=
  match req with
  | DELETE_summary _ => true
  | _ => false
  end.

(** A create that answered 201. *)
Definition created (entry : request * response) : bool :=
  match fst entry with
  | POST_summaries _ _ _ => status (snd entry) =? 201
  | _ => false
  end.

(** A fixed provider for the examples: the first five words of the text. *)
Definition first_words : pipeline := fun text max_length min_length =>
  Return (List.concat (map (fun w => w ++ lit " ") (firstn 5 (split text)))).

(** A provider that is down. *)
Definition provider_down : pipeline := fun text max_length min_length =>
  Raise (Exception (lit "model failure")).

(** The compression ratio as the specification words it: the word count
    of the summary over the word count of the original, as a percentage
    rounded to two decimals. *)
Definition spec_compression_ratio (summary original : str) : result float :=
  q <- truediv (word_count summary) (word_count original) ;;
  Return (round (fmul q (float_of_int 100)) 2).

(** The JSON document of a response, if it carries one. *)
Definition json_of (resp : response) : option json :=
  match content resp with
  | jsonify j => Some j
  | error_page => None
  end.

(** A row with this primary key is in the table. *)
Definition stored (tbl : table) (summary_id : Z) : Prop :=
  exists r, In r tbl /\ id r = summary_id.

(** Newest first: the order of [created_at.desc()]. *)
Definition newer_first (a b : Summary) : Prop := created_at b <= created_at a.

(** Every row was created no later than it was last written, and no later
    than the clock reading [T]. *)
Definition timely (T : datetime) (tbl : table) : Prop :=
  forall r, In r tbl -> created_at r <= updated_at r /\ created_at r <= T.

(** A delete that answered 200. *)
Definition deleted (entry : request * response) : bool :=
  match fst entry with
  | DELETE_summary _ => status (snd entry) =? 200
  | _ => false
  end.

(** The primary key a request addresses in its path, if it has one and
    writes. *)
Definition target (req : request) : option Z :=
  match req with
  | PUT_summary summary_id _ _ => Some summary_id
  | DELETE_summary summary_id => Some summary_id
  | _ => None
  end.

(** *** Example requests *)

Definition twelve_words : str :=
  lit "one two three four five six seven eight nine ten eleven twelve".

(** A body with a text and nothing else. *)
Definition text_only (text : str) : body := mkBody (Some text) None None None.

(** A body with a title and nothing else. *)
Definition title_only (t : str) : body := mkBody None None None (Some t).

(** The table after one create served by [first_words]. *)
Definition one_row : table :=
  Eval vm_compute in
  snd (create_summary (Some first_words) [] (Some (text_only twelve_words)) 100 101).

(** Two creates, an update of the first record, the delete of the second. *)
Definition example_requests : list request :=
  [ POST_summaries (Some (text_only twelve_words)) 100 101;
    PUT_summary 1 (Some (title_only (lit "Numbers"))) 200;
    POST_summaries (Some (text_only twelve_words)) 300 301;
    GET_summaries;
    DELETE_summary 2 ].

(* ================================================================= *)
(** ** Words *)

Lemma length_split_from (s : str) :
  forall word,
    List.length (split_from word s) =
    match word with
    | [] => word_starts true s
    | _ :: _ => S (word_starts false s)
    end.
Proof.
  induction s as [|c s IH]; intros word; simpl.
  - destruct word; reflexivity.
  - destruct (isspace c).
    + destruct word; simpl; rewrite (IH []); reflexivity.
    + rewrite (IH (c :: word)). destruct word; reflexivity.
Qed.

(** [len(s.split())] is the number of whitespace-separated words of [s]. *)
Lemma len_split (s : str) : len (split s) = word_count s.
Proof.
  unfold len, split, word_count. now rewrite length_split_from.
Qed.

Lemma word_count_nonneg (s : str) : 0 <= word_count s.
Proof. unfold word_count. lia. Qed.

(* ================================================================= *)
(** ** The table *)

Lemma query_get_some tbl i r :
  query_get tbl i = Some r -> In r tbl /\ id r = i.
Proof.
  unfold query_get. intros H. apply find_some in H.
  destruct H as [Hin Heq]. split; [exact Hin | now apply Z.eqb_eq].
Qed.

Lemma query_get_none tbl i :
  query_get tbl i = None <-> ~ stored tbl i.
Proof.
  unfold query_get, stored. split.
  - intros H [r [Hin Hid]].
    pose proof (find_none _ _ H r Hin) as Hne. simpl in Hne.
    apply Z.eqb_neq in Hne. contradiction.
  - intros H. destruct (find (fun r => id r =? i) tbl) as [r|] eqn:E; [|reflexivity].
    exfalso. apply H. exists r. apply find_some in E.
    destruct E as [Hin Heq]. split; [exact Hin | now apply Z.eqb_eq].
Qed.

Lemma stored_query_get tbl i :
  stored tbl i -> exists r, query_get tbl i = Some r.
Proof.
  intros H. destruct (query_get tbl i) as [r|] eqn:E.
  - now exists r.
  - apply query_get_none in E. contradiction.
Qed.

Lemma max_id_bound tbl r :
  In r tbl -> id r <= fold_right Z.max 0 (map id tbl).
Proof.
  induction tbl as [|r' tbl IH]; simpl; [contradiction|].
  intros [->|Hin]; [lia|]. specialize (IH Hin). lia.
Qed.

Lemma next_id_fresh tbl : ~ stored tbl (next_id tbl).
Proof.
  intros [r [Hin Hid]]. apply max_id_bound in Hin. unfold next_id in Hid. lia.
Qed.

Lemma query_get_app tbl row i :
  query_get (tbl ++ [row]) i =
  match query_get tbl i with
  | Some r => Some r
  | None => if id row =? i then Some row else None
  end.
Proof.
  unfold query_get. induction tbl as [|r tbl IH]; simpl.
  - reflexivity.
  - destruct (id r =? i); [reflexivity | exact IH].
Qed.

Lemma query_get_inserted tbl row :
  id row = next_id tbl -> query_get (tbl ++ [row]) (id row) = Some row.
Proof.
  intros Hid. rewrite query_get_app.
  destruct (query_get tbl (id row)) as [r|] eqn:E.
  - apply query_get_some in E. exfalso. apply (next_id_fresh tbl).
    exists r. now rewrite <- Hid.
  - now rewrite Z.eqb_refl.
Qed.

Lemma query_get_commit_update tbl s i :
  query_get (commit_update tbl s) i =
  if i =? id s then
    match query_get tbl i with
    | Some _ => Some s
    | None => None
    end
  else query_get tbl i.
Proof.
  unfold query_get, commit_update. induction tbl as [|r tbl IH]; simpl.
  - now destruct (i =? id s).
  - destruct (id r =? id s) eqn:Ers.
    + apply Z.eqb_eq in Ers. rewrite Ers, (Z.eqb_sym (id s) i).
      destruct (i =? id s) eqn:Eis; [reflexivity | exact IH].
    + destruct (id r =? i) eqn:Eri.
      * apply Z.eqb_eq in Eri. subst i. rewrite Ers. reflexivity.
      * exact IH.
Qed.

Lemma query_get_commit_delete tbl s i :
  query_get (commit_delete tbl s) i =
  if i =? id s then None else query_get tbl i.
Proof.
  unfold query_get, commit_delete. induction tbl as [|r tbl IH]; simpl.
  - now destruct (i =? id s).
  - destruct (id r =? id s) eqn:Ers; simpl.
    + rewrite IH. apply Z.eqb_eq in Ers. rewrite Ers, (Z.eqb_sym (id s) i).
      now destruct (i =? id s).
    + destruct (id r =? i) eqn:Eri.
      * apply Z.eqb_eq in Eri. subst i. now rewrite Ers.
      * exact IH.
Qed.

Lemma map_id_commit_update tbl s :
  map id (commit_update tbl s) = map id tbl.
Proof.
  unfold commit_update. rewrite map_map. apply map_ext.
  intros r. destruct (id r =? id s) eqn:E; [|reflexivity].
  apply Z.eqb_eq in E. now symmetry.
Qed.

(** Deleting a row leaves the remaining primary keys distinct. *)
Lemma commit_delete_keys tbl s k :
  In k (map id (commit_delete tbl s)) -> In k (map id tbl).
Proof.
  unfold commit_delete. intros Hk. apply in_map_iff in Hk.
  destruct Hk as (r & Hr & Hin). apply filter_In in Hin.
  apply in_map_iff. exists r. tauto.
Qed.

Lemma commit_delete_NoDup tbl s :
  NoDup (map id tbl) -> NoDup (map id (commit_delete tbl s)).
Proof.
  induction tbl as [|r tbl IH]; intros Hnd; [constructor|].
  apply NoDup_cons_iff in Hnd. destruct Hnd as [Hfresh Hnd].
  unfold commit_delete. simpl.
  destruct (negb (id r =? id s)); [|exact (IH Hnd)].
  simpl. apply NoDup_cons_iff. split; [|exact (IH Hnd)].
  intros Hk. apply Hfresh. exact (commit_delete_keys tbl s (id r) Hk).
Qed.

(** In a table whose primary keys are distinct, a row is the one its key
    finds. *)
Lemma query_get_unique tbl r :
  NoDup (map id tbl) -> In r tbl -> query_get tbl (id r) = Some r.
Proof.
  unfold query_get. induction tbl as [|r' tbl IH]; simpl; [contradiction|].
  intros Hnd Hin. inversion Hnd as [|? ? Hnotin Hnd']; subst.
  destruct Hin as [->|Hin]; [now rewrite Z.eqb_refl|].
  destruct (id r' =? id r) eqn:E; [|now apply IH].
  apply Z.eqb_eq in E. exfalso. apply Hnotin. rewrite E. now apply in_map.
Qed.

(* ================================================================= *)
(** ** What the engine can bind *)

Lemma encode_from_encodable s :
  forall pos, encodable s = true -> encode_from pos s = Return tt.
Proof.
  induction s as [|c s IH]; intros pos H; simpl in *; [reflexivity|].
  apply andb_true_iff in H. destruct H as [Hc Hs].
  destruct (is_surrogate c); [discriminate Hc|]. now apply IH.
Qed.

Lemma encode_from_Return s :
  forall pos u, encode_from pos s = Return u -> encodable s = true.
Proof.
  induction s as [|c s IH]; intros pos u H; simpl in *; [reflexivity|].
  destruct (is_surrogate c); [discriminate H|]. simpl. now apply (IH (N.succ pos) u).
Qed.

(** A text binds exactly when it has no surrogate. *)
Lemma bind_text_cases s :
  (encodable s = true /\ bind_text s = Return tt)
  \/ (encodable s = false /\ exists e, bind_text s = Raise e).
Proof.
  unfold bind_text, encode_utf8.
  destruct (encodable s) eqn:E.
  - left. split; [reflexivity | now apply encode_from_encodable].
  - right. split; [reflexivity|].
    destruct (encode_from 0 s) as [u|e] eqn:H; [|now exists e].
    apply encode_from_Return in H. congruence.
Qed.

Lemma bind_text_encodable s : encodable s = true -> bind_text s = Return tt.
Proof.
  intros H. destruct (bind_text_cases s) as [[_ Hb]|[Hn _]]; [exact Hb | congruence].
Qed.

Lemma bind_text_Return s u : bind_text s = Return u -> encodable s = true.
Proof.
  intros H. destruct (bind_text_cases s) as [[He _]|[_ [e He]]]; [exact He | congruence].
Qed.

Lemma bind_text_Raise s e : bind_text s = Raise e -> encodable s = false.
Proof.
  intros H. destruct (bind_text_cases s) as [[_ Hb]|[Hn _]]; [congruence | exact Hn].
Qed.

(** An INSERT stores exactly when its three texts bind. *)
Lemma insert_cases tbl original summary ttl ratio t_created t_updated :
  let row := mkSummary (next_id tbl) original summary t_created t_updated ttl ratio in
  (encodable original = true /\ encodable summary = true /\ encodable ttl = true /\
   insert tbl original summary ttl ratio t_created t_updated = Return (row, tbl ++ [row]))
  \/
  ((encodable original = false \/ encodable summary = false \/ encodable ttl = false) /\
   exists e, insert tbl original summary ttl ratio t_created t_updated = Raise e).
Proof.
  cbv zeta. unfold insert.
  destruct (bind_text_cases original) as [[Ho Hbo]|[Ho [e Hbo]]]; rewrite Hbo; simpl;
    [|right; split; [now left | now exists e]].
  destruct (bind_text_cases summary) as [[Hs Hbs]|[Hs [e Hbs]]]; rewrite Hbs; simpl;
    [|right; split; [right; now left | now exists e]].
  destruct (bind_text_cases ttl) as [[Ht Hbt]|[Ht [e Hbt]]]; rewrite Hbt; simpl;
    [|right; split; [right; now right | now exists e]].
  left. repeat split; assumption.
Qed.


Lemma bind_changed_encodable old new :
  encodable new = true -> bind_changed old new = Return tt.
Proof.
  intros H. unfold bind_changed.
  destruct (list_eq_dec N.eq_dec old new); [reflexivity | now apply bind_text_encodable].
Qed.

Lemma bind_changed_Return old new u :
  bind_changed old new = Return u -> encodable old = true -> encodable new = true.
Proof.
  unfold bind_changed.
  destruct (list_eq_dec N.eq_dec old new) as [<-|_]; [intros _ H; exact H|].
  intros H _. now apply bind_text_Return with u.
Qed.

Lemma bind_changed_Raise old new e :
  bind_changed old new = Raise e -> encodable new = false.
Proof.
  unfold bind_changed.
  destruct (list_eq_dec N.eq_dec old new); [discriminate | apply bind_text_Raise].
Qed.

(** For a loaded row whose texts encode, an UPDATE goes through exactly
    when the texts it ends with all encode. *)
Lemma flush_update_cases old row :
  encodable (original_text old) = true ->
  encodable (summary_text old) = true ->
  encodable (title old) = true ->
  (flush_update old row = Return tt /\
   encodable (original_text row) = true /\
   encodable (summary_text row) = true /\
   encodable (title row) = true)
  \/
  ((exists e, flush_update old row = Raise e) /\
   (encodable (original_text row) = false \/
    encodable (summary_text row) = false \/
    encodable (title row) = false)).
Proof.
  intros Ho Hs Ht. unfold flush_update.
  destruct (bind_changed (original_text old) (original_text row)) as [[]|e1] eqn:E1;
    simpl.
  2: { right. split; [now exists e1|]. left. exact (bind_changed_Raise _ _ _ E1). }
  destruct (bind_changed (summary_text old) (summary_text row)) as [[]|e2] eqn:E2;
    simpl.
  2: { right. split; [now exists e2|]. right. left.
       exact (bind_changed_Raise _ _ _ E2). }
  destruct (bind_changed (title old) (title row)) as [[]|e3] eqn:E3.
  2: { right. split; [now exists e3|]. right. right.
       exact (bind_changed_Raise _ _ _ E3). }
  left. split; [reflexivity|].
  split; [exact (bind_changed_Return _ _ _ E1 Ho)|].
  split; [exact (bind_changed_Return _ _ _ E2 Hs) | exact (bind_changed_Return _ _ _ E3 Ht)].
Qed.

(** ** The lookup by key *)

Lemma get_or_404_found tbl i r :
  query_get tbl i = Some r -> get_or_404 tbl i = found r.
Proof.
  intros H. unfold get_or_404. now rewrite H.
Qed.

Lemma get_or_404_absent tbl i :
  query_get tbl i = None ->
  get_or_404 tbl i = if fits i then abort_404 else uncaught OverflowError.
Proof.
  intros H. unfold get_or_404, bind_key. rewrite H. now destruct (fits i).
Qed.

(** On a table whose keys fit, as every table of the engine is, the
    lookup is the one that binds the key before it selects. *)
Lemma get_or_404_bind_first tbl i :
  Forall (fun r => fits (id r) = true) tbl ->
  get_or_404 tbl i
  = match bind_key i with
    | Raise e => uncaught e
    | Return _ =>
        match query_get tbl i with
        | Some summary => found summary
        | None => abort_404
        end
    end.
Proof.
  intros Hfit. unfold get_or_404, bind_key.
  destruct (query_get tbl i) as [r|] eqn:Eget; [|now destruct (fits i)].
  apply query_get_some in Eget. destruct Eget as [Hin Hid].
  rewrite Forall_forall in Hfit. specialize (Hfit r Hin).
  rewrite Hid in Hfit. now rewrite Hfit.
Qed.

(* ================================================================= *)
(** ** The ordered scan *)

Lemma insert_desc_perm r rows : Permutation (insert_desc r rows) (r :: rows).
Proof.
  induction rows as [|r' rows IH]; simpl.
  - apply Permutation_refl.
  - destruct (created_at r' <? created_at r).
    + apply Permutation_refl.
    + apply perm_trans with (r' :: r :: rows).
      * now apply perm_skip.
      * apply perm_swap.
Qed.

Lemma insert_desc_sorted r rows :
  StronglySorted newer_first rows -> StronglySorted newer_first (insert_desc r rows).
Proof.
  induction rows as [|r' rows IH]; simpl; intros Hs.
  - constructor; constructor.
  - inversion Hs as [|? ? Hs' Hall]; subst.
    destruct (created_at r' <? created_at r) eqn:E.
    + apply Z.ltb_lt in E. constructor; [exact Hs|].
      constructor; [unfold newer_first; lia|].
      eapply Forall_impl; [|exact Hall].
      unfold newer_first. intros a Ha. lia.
    + apply Z.ltb_ge in E. constructor; [now apply IH|].
      apply (Permutation_Forall (Permutation_sym (insert_desc_perm r rows))).
      constructor; [exact E | exact Hall].
Qed.

Lemma fold_insert_desc tbl :
  forall acc,
    StronglySorted newer_first acc ->
    Permutation (fold_left (fun acc r => insert_desc r acc) tbl acc) (acc ++ tbl) /\
    StronglySorted newer_first (fold_left (fun acc r => insert_desc r acc) tbl acc).
Proof.
  induction tbl as [|r tbl IH]; simpl; intros acc Hs.
  - rewrite app_nil_r. split; [apply Permutation_refl | exact Hs].
  - destruct (IH (insert_desc r acc) (insert_desc_sorted r acc Hs)) as [Hp Hs'].
    split; [|exact Hs'].
    apply perm_trans with (insert_desc r acc ++ tbl); [exact Hp|].
    apply perm_trans with ((r :: acc) ++ tbl).
    + apply Permutation_app_tail, insert_desc_perm.
    + simpl. apply Permutation_middle.
Qed.

Lemma order_by_created_at_desc_perm tbl :
  Permutation (order_by_created_at_desc tbl) tbl.
Proof.
  apply (fold_insert_desc tbl []). constructor.
Qed.

Lemma order_by_created_at_desc_sorted tbl :
  StronglySorted newer_first (order_by_created_at_desc tbl).
Proof.
  apply (fold_insert_desc tbl []). constructor.
Qed.

(* ================================================================= *)
(** ** The handlers *)

(** A branch of a handler that answers with another status than the one
    assumed. *)
Ltac other_status H Hst :=
  inversion H; subst; simpl in Hst; discriminate Hst.

Lemma ratio_of_spec generated_summary text x :
  ratio_of generated_summary text = Return x ->
  spec_compression_ratio generated_summary text = Return x.
Proof.
  unfold ratio_of, spec_compression_ratio. now rewrite !len_split.
Qed.

Section Properties.

Variable summarizer : option pipeline.

(** A create that answers 201 has called the provider, computed the ratio
    and appended one row, which the response renders. *)
Lemma create_summary_201 tbl data t_created t_updated resp tbl' :
  create_summary summarizer tbl data t_created t_updated = (resp, tbl') ->
  status resp = 201 ->
  exists d text generated_summary ratio,
    data = Some d /\ j_text d = Some text /\
    call summarizer text (dict_get (j_max_length d) 130) (dict_get (j_min_length d) 30)
      = Return generated_summary /\
    ratio_of generated_summary text = Return ratio /\
    let row := mkSummary (next_id tbl) text generated_summary t_created t_updated
                         (dict_get (j_title d) (lit "Untitled")) ratio in
    resp = mkResponse (jsonify (to_dict row)) 201 /\ tbl' = tbl ++ [row].
Proof.
  intros H Hst. unfold create_summary in H.
  destruct data as [d|]; [|other_status H Hst].
  destruct (j_text d) as [text|] eqn:Etext; [|other_status H Hst].
  destruct (len (split text) <? 10); [other_status H Hst|].
  destruct (call summarizer text _ _) as [generated_summary|e] eqn:Esum; simpl in H;
    [|other_status H Hst].
  destruct (ratio_of generated_summary text) as [ratio|e] eqn:Eratio; simpl in H;
    [|other_status H Hst].
  destruct (insert_cases tbl text generated_summary
              (dict_get (j_title d) (lit "Untitled")) ratio t_created t_updated)
    as [(_ & _ & _ & Hins)|[_ [e Hins]]]; rewrite Hins in H;
    [|other_status H Hst].
  inversion H; subst. exists d, text, generated_summary, ratio.
  repeat split; assumption.
Qed.

(** An update that answers 200 has committed the row it renders. *)
Lemma update_summary_200 tbl summary_id data now resp tbl' :
  update_summary summarizer tbl summary_id data now = (resp, tbl') ->
  status resp = 200 ->
  exists summary d replaced,
    query_get tbl summary_id = Some summary /\ data = Some d /\
    replace_text summarizer summary d = Return replaced /\
    let row := set_updated_at
                 (match j_title d with
                  | Some t => set_title replaced t
                  | None => replaced
                  end) now in
    resp = mkResponse (jsonify (to_dict row)) 200 /\ tbl' = commit_update tbl row.
Proof.
  intros H Hst. unfold update_summary in H.
  destruct (query_get tbl summary_id) as [summary|] eqn:Eget.
  2: { rewrite (get_or_404_absent _ _ Eget) in H.
       destruct (fits summary_id); other_status H Hst. }
  rewrite (get_or_404_found _ _ _ Eget) in H.
  destruct data as [d|]; [|other_status H Hst].
  destruct (replace_text summarizer summary d) as [replaced|e] eqn:Erep;
    [|other_status H Hst].
  destruct (flush_update _ _); [|other_status H Hst].
  inversion H; subst. exists summary, d, replaced. repeat split; assumption.
Qed.

(** The text block of an update keeps the key and the creation time. *)
Lemma replace_text_keeps summary d replaced :
  replace_text summarizer summary d = Return replaced ->
  id replaced = id summary /\ created_at replaced = created_at summary.
Proof.
  unfold replace_text. destruct (j_text d) as [text|].
  - destruct (call summarizer text _ _) as [generated_summary|e]; simpl; [|discriminate].
    destruct (ratio_of generated_summary text) as [ratio|e]; simpl; [|discriminate].
    intros H. inversion H; subst. split; reflexivity.
  - intros H. inversion H; subst. split; reflexivity.
Qed.

(** The row an update commits is the one its key finds afterwards. *)
Lemma query_get_updated tbl summary_id summary row :
  query_get tbl summary_id = Some summary ->
  id row = id summary ->
  query_get (commit_update tbl row) summary_id = Some row.
Proof.
  intros Hget Hid. pose proof (query_get_some _ _ _ Hget) as [_ Hsid].
  rewrite query_get_commit_update, Hid, Hsid, Z.eqb_refl, Hget. reflexivity.
Qed.

(** C1. Every successful create stores and returns a compression ratio
    equal to round(words(summary) / words(original) * 100, 2), the words
    being the whitespace-separated ones; every successful update that
    replaces the text recomputes the ratio by the same formula from the new
    text and its summary. *)
Theorem compression_ratio_formula :
  forall (tbl : table) (t_created t_updated now : datetime) (summary_id : Z),
    (forall data resp tbl',
        create_summary summarizer tbl data t_created t_updated = (resp, tbl') ->
        status resp = 201 ->
        exists row,
          content resp = jsonify (to_dict row) /\
          query_get tbl' (id row) = Some row /\
          spec_compression_ratio (summary_text row) (original_text row)
          = Return (compression_ratio row))
    /\
    (forall data text resp tbl',
        j_text data = Some text ->
        update_summary summarizer tbl summary_id (Some data) now = (resp, tbl') ->
        status resp = 200 ->
        exists row,
          content resp = jsonify (to_dict row) /\
          query_get tbl' summary_id = Some row /\
          original_text row = text /\
          spec_compression_ratio (summary_text row) (original_text row)
          = Return (compression_ratio row)).
Proof.
  intros tbl t_created t_updated now summary_id. split.
  - intros data resp tbl' H Hst.
    destruct (create_summary_201 _ _ _ _ _ _ H Hst)
      as (d & text & generated_summary & ratio & _ & _ & _ & Hratio & Hresp & Htbl).
    eexists. rewrite Hresp, Htbl. split; [reflexivity|]. split.
    + now apply query_get_inserted.
    + simpl. now apply ratio_of_spec.
  - intros data text resp tbl' Htext H Hst.
    destruct (update_summary_200 _ _ _ _ _ _ H Hst)
      as (summary & d & replaced & Hget & Hd & Hrep & Hresp & Htbl).
    inversion Hd; subst d. clear Hd.
    unfold replace_text in Hrep. rewrite Htext in Hrep.
    destruct (call summarizer text _ _) as [generated_summary|e]; simpl in Hrep;
      [|discriminate].
    destruct (ratio_of generated_summary text) as [ratio|e] eqn:Eratio;
      simpl in Hrep; [|discriminate].
    inversion Hrep; subst replaced. clear Hrep.
    eexists. rewrite Hresp, Htbl. split; [reflexivity|]. split.
    + apply query_get_updated with (summary := summary); [exact Hget|].
      destruct (j_title data); reflexivity.
    + destruct (j_title data); simpl; (split; [reflexivity | now apply ratio_of_spec]).
Qed.

(** The branch of create for a text of fewer than 10 words. *)
Lemma create_summary_short_text tbl d text t_created t_updated :
  j_text d = Some text ->
  word_count text < 10 ->
  create_summary summarizer tbl (Some d) t_created t_updated
  = (mkResponse
       (jsonify (JObj [("error", JStr (lit "this text is too short to summarize"))]%string))
       200,
     tbl).
Proof.
  intros Htext Hshort.
  unfold create_summary. rewrite Htext, len_split.
  apply Z.ltb_lt in Hshort. now rewrite Hshort.
Qed.

(** C2. A create whose text is present but has fewer than 10
    whitespace-separated words creates no record; the handler answers with
    the error field under status 200, the default of [jsonify], not with a
    4xx status as the branch for a missing text does (400). *)
Theorem create_summary_too_short :
  forall (tbl : table) (d : body) (text : str) (t_created t_updated : datetime),
    j_text d = Some text ->
    word_count text < 10 ->
    let out := create_summary summarizer tbl (Some d) t_created t_updated in
    status (fst out) = 200 /\
    json_of (fst out)
    = Some (JObj [("error", JStr (lit "this text is too short to summarize"))]%string) /\
    snd out = tbl /\
    create_summary summarizer tbl (Some (mkBody None (j_max_length d) (j_min_length d) (j_title d)))
                   t_created t_updated
    = (mkResponse (jsonify (JObj [("error", JStr (lit "No text provided"))]%string)) 400, tbl).
Proof.
  intros tbl d text t_created t_updated Htext Hshort. cbv zeta.
  rewrite (create_summary_short_text tbl d text t_created t_updated Htext Hshort).
  repeat split.
Qed.

(** C3. An update of an existing record whose provider call fails answers
    500 with the failure's text and leaves the whole table as it was: no
    field of the record is committed, not the title supplied in the same
    request and not [updated_at]. *)
Theorem update_summary_provider_failure :
  forall (tbl : table) (summary_id : Z) (d : body) (text : str) (e : exn)
         (now : datetime),
    stored tbl summary_id ->
    j_text d = Some text ->
    call summarizer text (dict_get (j_max_length d) 130) (dict_get (j_min_length d) 30)
    = Raise e ->
    update_summary summarizer tbl summary_id (Some d) now
    = (mkResponse (jsonify (JObj [("error", JStr (str_of_exn e))]%string)) 500, tbl).
Proof.
  intros tbl summary_id d text e now Hstored Htext Hfail.
  destruct (stored_query_get _ _ Hstored) as [summary Hget].
  unfold update_summary, replace_text.
  rewrite (get_or_404_found _ _ _ Hget), Htext, Hfail. reflexivity.
Qed.



(** C6. For an id that fits the key of the store (a signed
    64-bit integer), fetching or deleting an id that no stored record has
    answers 404 (and the delete leaves the table as it was); after a
    delete of such an id that answered 200, no record has the id and
    fetching it answers 404. *)
Theorem absent_record_not_found :
  forall (tbl : table) (summary_id : Z),
    fits summary_id = true ->
    (~ stored tbl summary_id ->
     get_summary tbl summary_id = mkResponse error_page 404 /\
     delete_summary tbl summary_id = (mkResponse error_page 404, tbl))
    /\
    (forall resp tbl',
        delete_summary tbl summary_id = (resp, tbl') ->
        status resp = 200 ->
        ~ stored tbl' summary_id /\
        get_summary tbl' summary_id = mkResponse error_page 404).
Proof.
  intros tbl summary_id Hfits. split.
  - intros Habsent. apply query_get_none in Habsent.
    unfold get_summary, delete_summary.
    rewrite (get_or_404_absent _ _ Habsent), Hfits. split; reflexivity.
  - intros resp tbl' H Hst. unfold delete_summary in H.
    destruct (query_get tbl summary_id) as [summary|] eqn:Eget.
    2: { rewrite (get_or_404_absent _ _ Eget), Hfits in H. other_status H Hst. }
    rewrite (get_or_404_found _ _ _ Eget) in H.
    inversion H; subst. clear H.
    pose proof (query_get_some _ _ _ Eget) as [_ Hid].
    assert (Hgone : query_get (commit_delete tbl summary) summary_id = None).
    { rewrite query_get_commit_delete, Hid, Z.eqb_refl. reflexivity. }
    split.
    + now apply query_get_none.
    + unfold get_summary. now rewrite (get_or_404_absent _ _ Hgone), Hfits.
Qed.

(** C7. The health check answers 200 in every state of the engine, for
    every answer of the accelerator probe and whatever the provider global
    holds; the three subsystems are reported as booleans, and a failure to
    connect or to run the probe query is caught and reported as
    [database_connected = false]. *)
Theorem health_check_never_fails :
  forall (e : engine) (cuda : bool),
    status (health_check summarizer e cuda) = 200 /\
    exists model_loaded database_connected : bool,
      json_of (health_check summarizer e cuda)
      = Some (JObj [ ("status", JStr (lit "healthy"));
                     ("model_loaded", JBool model_loaded);
                     ("gpu_available", JBool cuda);
                     ("database_connected", JBool database_connected) ]%string) /\
      model_loaded = is_not_None summarizer /\
      (database_connected = true <-> e = engine_up).
Proof.
  intros e cuda. split; [reflexivity|].
  exists (is_not_None summarizer).
  destruct e; [exists true | exists false | exists false];
    (split; [reflexivity|]); (split; [reflexivity|]); split; congruence.
Qed.

(** C10. The [status] field of the health check is the string 'healthy'
    whatever the three booleans are. *)
Theorem health_check_status_healthy :
  forall (e : engine) (cuda : bool),
    exists j,
      json_of (health_check summarizer e cuda) = Some j /\
      field "status" j = Some (JStr (lit "healthy")) /\
      field "model_loaded" j = Some (JBool (is_not_None summarizer)) /\
      field "gpu_available" j = Some (JBool cuda) /\
      field "database_connected" j
      = Some (JBool match e with engine_up => true | _ => false end).
Proof.
  intros e cuda. eexists. split; [reflexivity|]. destruct e; repeat split.
Qed.

(** *** What one request does to the table *)

Lemma create_summary_cases tbl data t_created t_updated :
  let out := create_summary summarizer tbl data t_created t_updated in
  (status (fst out) = 201 /\
   exists row, snd out = tbl ++ [row] /\ id row = next_id tbl /\
               created_at row = t_created /\ updated_at row = t_updated)
  \/ (status (fst out) <> 201 /\ snd out = tbl).
Proof.
  unfold create_summary.
  destruct data as [d|]; [|right; split; [discriminate | reflexivity]].
  destruct (j_text d) as [text|]; [|right; split; [discriminate | reflexivity]].
  destruct (len (split text) <? 10); [right; split; [discriminate | reflexivity]|].
  destruct (call summarizer text _ _) as [generated_summary|e]; simpl;
    [|right; split; [discriminate | reflexivity]].
  destruct (ratio_of generated_summary text) as [ratio|e]; simpl;
    [|right; split; [discriminate | reflexivity]].
  destruct (insert_cases tbl text generated_summary
              (dict_get (j_title d) (lit "Untitled")) ratio t_created t_updated)
    as [(_ & _ & _ & Hins)|[_ [e Hins]]]; rewrite Hins;
    [|right; split; [discriminate | reflexivity]].
  left. split; [reflexivity|]. eexists. repeat split.
Qed.

Lemma update_summary_cases tbl summary_id data now :
  let out := update_summary summarizer tbl summary_id data now in
  snd out = tbl \/
  exists summary row,
    query_get tbl summary_id = Some summary /\
    snd out = commit_update tbl row /\
    id row = id summary /\
    created_at row = created_at summary /\
    updated_at row = now.
Proof.
  unfold update_summary.
  destruct (query_get tbl summary_id) as [summary|] eqn:Eget.
  2: { rewrite (get_or_404_absent _ _ Eget). left. now destruct (fits summary_id). }
  rewrite (get_or_404_found _ _ _ Eget).
  destruct data as [d|]; [|now left].
  destruct (replace_text summarizer summary d) as [replaced|e] eqn:Erep; [|now left].
  destruct (replace_text_keeps _ _ _ Erep) as [Hid Hcreated].
  destruct (flush_update _ _); [|now left].
  right. exists summary. eexists. split; [reflexivity|]. split; [reflexivity|].
  destruct (j_title d); simpl; repeat split; assumption.
Qed.

Lemma delete_summary_cases tbl summary_id :
  let out := delete_summary tbl summary_id in
  snd out = tbl \/
  exists summary,
    query_get tbl summary_id = Some summary /\ snd out = commit_delete tbl summary.
Proof.
  unfold delete_summary.
  destruct (query_get tbl summary_id) as [summary|] eqn:Eget.
  2: { rewrite (get_or_404_absent _ _ Eget). left. now destruct (fits summary_id). }
  rewrite (get_or_404_found _ _ _ Eget).
  right. now exists summary.
Qed.

Lemma serve_app tbl pre mid :
  serve summarizer tbl (pre ++ mid) = serve summarizer (serve summarizer tbl pre) mid.
Proof.
  revert tbl. induction pre as [|req pre IH]; intros tbl; simpl; [reflexivity|].
  apply IH.
Qed.

(** The primary keys of the table stay distinct. *)
Lemma handle_NoDup tbl req :
  NoDup (map id tbl) -> NoDup (map id (snd (handle summarizer tbl req))).
Proof.
  intros Hnd. destruct req as [data t_created t_updated| |i|i data now|i]; simpl;
    try exact Hnd.
  - destruct (create_summary_cases tbl data t_created t_updated)
      as [[_ (row & Htbl & Hid & _)]|[_ Htbl]]; rewrite Htbl; [|exact Hnd].
    apply Permutation_NoDup with (id row :: map id tbl).
    + rewrite map_app. simpl. apply Permutation_cons_append.
    + constructor; [|exact Hnd]. intros Hin. apply in_map_iff in Hin.
      destruct Hin as (r & Hr & Hin). apply (next_id_fresh tbl).
      exists r. split; [exact Hin | congruence].
  - destruct (update_summary_cases tbl i data now)
      as [Htbl|(summary & row & _ & Htbl & _)]; rewrite Htbl; [exact Hnd|].
    now rewrite map_id_commit_update.
  - destruct (delete_summary_cases tbl i) as [Htbl|(summary & _ & Htbl)];
      rewrite Htbl; [exact Hnd|].
    now apply commit_delete_NoDup.
Qed.

Lemma serve_NoDup reqs :
  forall tbl, NoDup (map id tbl) -> NoDup (map id (serve summarizer tbl reqs)).
Proof.
  induction reqs as [|req reqs IH]; intros tbl Hnd; simpl; [exact Hnd|].
  apply IH. now apply handle_NoDup.
Qed.

(** A request that is not the delete of a record keeps the record and its
    creation time. *)
Lemma handle_keeps_created_at tbl req i r :
  query_get tbl i = Some r ->
  req <> DELETE_summary i ->
  exists r',
    query_get (snd (handle summarizer tbl req)) i = Some r' /\
    created_at r' = created_at r.
Proof.
  intros Hget Hreq.
  destruct req as [data t_created t_updated| |j|j data now|j]; simpl;
    try (exists r; split; [exact Hget | reflexivity]).
  - destruct (create_summary_cases tbl data t_created t_updated)
      as [[_ (row & Htbl & _)]|[_ Htbl]]; rewrite Htbl; exists r.
    + rewrite query_get_app, Hget. split; reflexivity.
    + split; [exact Hget | reflexivity].
  - destruct (update_summary_cases tbl j data now)
      as [Htbl|(summary & row & Hj & Htbl & Hid & Hcreated & _)]; rewrite Htbl.
    + exists r. split; [exact Hget | reflexivity].
    + rewrite query_get_commit_update.
      destruct (i =? id row) eqn:E.
      * apply Z.eqb_eq in E. rewrite Hget. exists row. split; [reflexivity|].
        pose proof (query_get_some _ _ _ Hj) as [_ Hsj].
        assert (Hij : i = j) by congruence.
        rewrite Hij, Hj in Hget. inversion Hget; subst. exact Hcreated.
      * exists r. split; [exact Hget | reflexivity].
  - destruct (delete_summary_cases tbl j) as [Htbl|(summary & Hj & Htbl)];
      rewrite Htbl.
    + exists r. split; [exact Hget | reflexivity].
    + rewrite query_get_commit_delete.
      pose proof (query_get_some _ _ _ Hj) as [_ Hsj].
      destruct (i =? id summary) eqn:E.
      * apply Z.eqb_eq in E. exfalso. apply Hreq. congruence.
      * exists r. split; [exact Hget | reflexivity].
Qed.

Lemma serve_keeps_created_at mid :
  forall tbl i r,
    query_get tbl i = Some r ->
    ~ In (DELETE_summary i) mid ->
    exists r',
      query_get (serve summarizer tbl mid) i = Some r' /\
      created_at r' = created_at r.
Proof.
  induction mid as [|req mid IH]; intros tbl i r Hget Hnodel; simpl.
  - exists r. split; [exact Hget | reflexivity].
  - destruct (handle_keeps_created_at tbl req i r Hget) as (r1 & Hget1 & Hc1).
    { intros ->. apply Hnodel. now left. }
    destruct (IH _ i r1 Hget1) as (r' & Hget' & Hc').
    { intros Hin. apply Hnodel. now right. }
    exists r'. split; [exact Hget' | congruence].
Qed.

Lemma timely_later T T' tbl : T <= T' -> timely T tbl -> timely T' tbl.
Proof.
  intros Hle H r Hin. destruct (H r Hin). split; lia.
Qed.

Lemma handle_timely tbl req T :
  timely T tbl ->
  StronglySorted Z.le (T :: clock_readings req) ->
  timely (last (clock_readings req) T) (snd (handle summarizer tbl req)).
Proof.
  intros Ht Hs.
  destruct req as [data t_created t_updated| |i|i data now|i]; simpl;
    try exact Ht.
  - simpl in Hs. inversion Hs as [|? ? Hs1 Hall]; subst.
    inversion Hall as [|? ? HT1 Hall']; subst.
    inversion Hall' as [|? ? HT2 _]; subst.
    inversion Hs1 as [|? ? _ Hall1]; subst.
    inversion Hall1 as [|? ? H12 _]; subst.
    destruct (create_summary_cases tbl data t_created t_updated)
      as [[_ (row & Htbl & _ & Hc & Hu)]|[_ Htbl]]; rewrite Htbl.
    + intros r Hin. apply in_app_or in Hin. destruct Hin as [Hin|[<-|[]]].
      * destruct (Ht r Hin). split; lia.
      * rewrite Hc, Hu. lia.
    + now apply (timely_later T).
  - simpl in Hs. inversion Hs as [|? ? _ Hall]; subst.
    inversion Hall as [|? ? HT1 _]; subst.
    destruct (update_summary_cases tbl i data now)
      as [Htbl|(summary & row & Hget & Htbl & _ & Hc & Hu)]; rewrite Htbl.
    + now apply (timely_later T).
    + intros r Hin. unfold commit_update in Hin. apply in_map_iff in Hin.
      destruct Hin as (r0 & Hr & Hin).
      destruct (id r0 =? id row).
      * subst r. apply query_get_some in Hget. destruct Hget as [Hs0 _].
        destruct (Ht _ Hs0). rewrite Hc, Hu. lia.
      * subst r. destruct (Ht _ Hin). split; lia.
  - destruct (delete_summary_cases tbl i) as [Htbl|(summary & _ & Htbl)];
      rewrite Htbl; [exact Ht|].
    intros r Hin. apply filter_In in Hin. now apply Ht.
Qed.

Lemma last_cons_default (l : list Z) (a d d' : Z) :
  last (a :: l) d = last (a :: l) d'.
Proof.
  revert a. induction l as [|b l IH]; intros a; [reflexivity|].
  change (last (b :: l) d = last (b :: l) d'). apply IH.
Qed.

Lemma StronglySorted_app_last (l l' : list Z) (T : Z) :
  StronglySorted Z.le (T :: l ++ l') ->
  StronglySorted Z.le (T :: l) /\ StronglySorted Z.le (last l T :: l').
Proof.
  revert T. induction l as [|x l IH]; intros T Hs; simpl.
  - split; [constructor; constructor | exact Hs].
  - inversion Hs as [|? ? Hs' Hall]; subst.
    destruct (IH x Hs') as [H1 H2]. split.
    + constructor; [exact H1|]. simpl in Hall.
      inversion Hall as [|? ? Hx Hall']; subst. constructor; [exact Hx|].
      apply Forall_app in Hall'. tauto.
    + destruct l as [|z l]; [exact H2|].
      change (StronglySorted Z.le (last (z :: l) T :: l')).
      now rewrite (last_cons_default l z T x).
Qed.

Lemma serve_timely reqs :
  forall tbl T,
    timely T tbl ->
    StronglySorted Z.le (T :: flat_map clock_readings reqs) ->
    forall r, In r (serve summarizer tbl reqs) -> created_at r <= updated_at r.
Proof.
  induction reqs as [|req reqs IH]; intros tbl T Ht Hs r Hin; simpl in Hin.
  - now apply (Ht r).
  - simpl in Hs. apply StronglySorted_app_last in Hs. destruct Hs as [Hs1 Hs2].
    apply (IH (snd (handle summarizer tbl req)) (last (clock_readings req) T));
      try assumption.
    now apply handle_timely.
Qed.

Lemma clock_monotone_from reqs :
  clock_monotone reqs ->
  exists T, StronglySorted Z.le (T :: flat_map clock_readings reqs).
Proof.
  unfold clock_monotone. intros Hs.
  apply Sorted_StronglySorted in Hs; [|intros x y z; apply Z.le_trans].
  destruct (flat_map clock_readings reqs) as [|x l].
  - exists 0. constructor; constructor.
  - exists x. constructor; [exact Hs|].
    inversion Hs; subst. constructor; [lia | assumption].
Qed.

(** C8. A record keeps the [created_at] it had, whatever
    creates, updates and deletes of other records follow, for as long as
    it is not deleted; and along every sequence of requests served from
    the empty table with a clock that does not run backwards, every stored
    record has [updated_at >= created_at]. *)
Theorem created_at_fixed_and_not_after_updated_at :
  forall reqs : list request,
    (forall pre mid r r',
        reqs = pre ++ mid ->
        In r (serve summarizer [] pre) ->
        ~ In (DELETE_summary (id r)) mid ->
        In r' (serve summarizer [] reqs) ->
        id r' = id r ->
        created_at r' = created_at r)
    /\
    (clock_monotone reqs ->
     forall r, In r (serve summarizer [] reqs) -> created_at r <= updated_at r).
Proof.
  intros reqs. split.
  - intros pre mid r r' -> Hin Hnodel Hin' Hid.
    assert (Hnd : NoDup (map id (serve summarizer [] pre))).
    { apply serve_NoDup. constructor. }
    assert (Hnd' : NoDup (map id (serve summarizer [] (pre ++ mid)))).
    { apply serve_NoDup. constructor. }
    pose proof (query_get_unique _ _ Hnd Hin) as Hget.
    destruct (serve_keeps_created_at mid _ _ _ Hget Hnodel) as (r1 & Hget1 & Hc).
    rewrite <- serve_app in Hget1.
    pose proof (query_get_unique _ _ Hnd' Hin') as Hget'.
    rewrite Hid, Hget1 in Hget'. inversion Hget'; subst. exact Hc.
  - intros Hclock.
    destruct (clock_monotone_from reqs Hclock) as [T Hs].
    apply (serve_timely reqs [] T); [|exact Hs].
    intros r [].
Qed.

(** Without deletes, the table grows by one row per create that answers
    201. *)
Lemma serve_length reqs :
  forall tbl,
    forallb (fun req => negb (is_delete req)) reqs = true ->
    List.length (serve summarizer tbl reqs)
    = (List.length tbl
       + List.length (filter created (responses summarizer tbl reqs)))%nat.
Proof.
  induction reqs as [|req reqs IH]; intros tbl Hnodel; simpl.
  - lia.
  - simpl in Hnodel. apply andb_true_iff in Hnodel. destruct Hnodel as [Hreq Hrest].
    rewrite (IH _ Hrest).
    destruct req as [data t_created t_updated| |i|i data now|i]; simpl;
      try reflexivity; try discriminate Hreq.
    + unfold created. simpl.
      destruct (create_summary_cases tbl data t_created t_updated)
        as [[Hst (row & Htbl & _)]|[Hst Htbl]]; rewrite Htbl.
      * rewrite Hst. simpl. rewrite length_app. simpl. lia.
      * apply Z.eqb_neq in Hst. rewrite Hst. reflexivity.
    + destruct (update_summary_cases tbl i data now)
        as [Htbl|(summary & row & _ & Htbl & _)]; rewrite Htbl; [reflexivity|].
      unfold commit_update. now rewrite length_map.
Qed.

(** C5. In every state of the table the list operation answers with one
    entry per stored record, newest [created_at] first; served from the
    empty table, after requests without deletes it answers with as many
    entries as creates have answered 201. *)
Theorem get_summaries_all_newest_first :
  (forall tbl : table,
      exists rows,
        get_summaries tbl = mkResponse (jsonify (JArr (map to_dict rows))) 200 /\
        Permutation rows tbl /\
        StronglySorted newer_first rows)
  /\
  (forall reqs : list request,
      forallb (fun req => negb (is_delete req)) reqs = true ->
      exists items,
        json_of (get_summaries (serve summarizer [] reqs)) = Some (JArr items) /\
        List.length items
        = List.length (filter created (responses summarizer [] reqs))).
Proof.
  split.
  - intros tbl. exists (order_by_created_at_desc tbl). split; [reflexivity|]. split.
    + apply order_by_created_at_desc_perm.
    + apply order_by_created_at_desc_sorted.
  - intros reqs Hnodel. eexists. split; [reflexivity|].
    rewrite length_map.
    rewrite (Permutation_length (order_by_created_at_desc_perm _)).
    now rewrite (serve_length reqs [] Hnodel).
Qed.

Lemma truediv_positive (a b : Z) :
  0 < b -> exists q, truediv a b = Return q.
Proof.
  intros Hb. unfold truediv. destruct b as [|pb|pb]; try lia.
  destruct a; eexists; reflexivity.
Qed.

(** The UPDATE binds when the texts the row ends with all encode. *)
Lemma flush_update_encodable loaded row :
  encodable (original_text row) = true ->
  encodable (summary_text row) = true ->
  encodable (title row) = true ->
  flush_update loaded row = Return tt.
Proof.
  intros Ho Hs Ht. unfold flush_update.
  rewrite (bind_changed_encodable _ _ Ho). simpl.
  rewrite (bind_changed_encodable _ _ Hs). simpl.
  now apply bind_changed_encodable.
Qed.

(** C9. An update applies no minimum word count to a replacement text.
    Where create turns a text of fewer than 10 words down, an update with
    the same text, once the provider has answered, stores the text and its
    summary with the recomputed ratio if the text has a word at all and
    the store can encode what is written; with no word the ratio divides
    by zero, and the update answers 500 with 'division by zero' and leaves
    the table as it was. *)
Theorem update_summary_no_minimum_words :
  forall (tbl : table) (summary_id : Z) (summary : Summary) (d : body)
         (text generated_summary : str) (now : datetime),
    query_get tbl summary_id = Some summary ->
    j_text d = Some text ->
    word_count text < 10 ->
    call summarizer text (dict_get (j_max_length d) 130) (dict_get (j_min_length d) 30)
    = Return generated_summary ->
    (forall t_created t_updated,
        status (fst (create_summary summarizer tbl (Some d) t_created t_updated)) <> 201 /\
        snd (create_summary summarizer tbl (Some d) t_created t_updated) = tbl)
    /\
    (0 < word_count text ->
     encodable text = true ->
     encodable generated_summary = true ->
     encodable (dict_get (j_title d) (title summary)) = true ->
     exists row,
       update_summary summarizer tbl summary_id (Some d) now
       = (mkResponse (jsonify (to_dict row)) 200, commit_update tbl row) /\
       query_get (commit_update tbl row) summary_id = Some row /\
       original_text row = text /\
       summary_text row = generated_summary /\
       spec_compression_ratio generated_summary text
       = Return (compression_ratio row))
    /\
    (word_count text = 0 ->
     update_summary summarizer tbl summary_id (Some d) now
     = (mkResponse (jsonify (JObj [("error", JStr (lit "division by zero"))]%string)) 500,
        tbl)).
Proof.
  intros tbl summary_id summary d text generated_summary now Hget Htext Hshort Hcall.
  split; [|split].
  - intros t_created t_updated.
    rewrite (create_summary_short_text tbl d text t_created t_updated Htext Hshort).
    split; [discriminate | reflexivity].
  - intros Hword Henc_text Henc_summary Henc_title.
    destruct (truediv_positive (word_count generated_summary) (word_count text) Hword)
      as [q Hq].
    assert (Hratio : ratio_of generated_summary text
                     = Return (round (fmul q (float_of_int 100)) 2)).
    { unfold ratio_of. rewrite !len_split, Hq. reflexivity. }
    unfold update_summary, replace_text.
    rewrite (get_or_404_found _ _ _ Hget), Htext, Hcall. simpl.
    rewrite Hratio. simpl.
    rewrite flush_update_encodable;
      [|destruct (j_title d); exact Henc_text
       |destruct (j_title d); exact Henc_summary
       |destruct (j_title d); exact Henc_title].
    eexists. split; [reflexivity|]. split.
    + apply query_get_updated with (summary := summary); [exact Hget|].
      destruct (j_title d); reflexivity.
    + destruct (j_title d); simpl;
        (split; [reflexivity|]); (split; [reflexivity|]);
        now apply ratio_of_spec.
  - intros Hzero.
    assert (Hratio : ratio_of generated_summary text = Raise ZeroDivisionError).
    { unfold ratio_of. rewrite !len_split, Hzero. reflexivity. }
    unfold update_summary, replace_text.
    rewrite (get_or_404_found _ _ _ Hget), Htext, Hcall. simpl.
    rewrite Hratio. reflexivity.
Qed.

End Properties.

(* ================================================================= *)
(** ** The theorems at concrete requests *)

(** The create of [twelve_words] served by [first_words] stores the ratio
    of 5 words to 12, and an update to a three-word text the ratio of 3
    to 3. *)
Lemma compression_ratio_formula_witness :
  (exists row,
      content (fst (create_summary (Some first_words) []
                      (Some (text_only twelve_words)) 100 101))
      = jsonify (to_dict row) /\
      query_get one_row (id row) = Some row /\
      spec_compression_ratio (summary_text row) (original_text row)
      = Return (compression_ratio row))
  /\
  (exists row,
      content (fst (update_summary (Some first_words) one_row 1
                      (Some (text_only (lit "a b c"))) 200))
      = jsonify (to_dict row) /\
      query_get (snd (update_summary (Some first_words) one_row 1
                        (Some (text_only (lit "a b c"))) 200)) 1 = Some row /\
      original_text row = lit "a b c" /\
      spec_compression_ratio (summary_text row) (original_text row)
      = Return (compression_ratio row)).
Proof.
  split.
  - apply (proj1 (compression_ratio_formula (Some first_words) [] 100 101 200 1)
                 (Some (text_only twelve_words))).
    + apply surjective_pairing.
    + vm_compute. reflexivity.
  - apply (proj2 (compression_ratio_formula (Some first_words) one_row 100 101 200 1)
                 (text_only (lit "a b c")) (lit "a b c")).
    + reflexivity.
    + apply surjective_pairing.
    + vm_compute. reflexivity.
Defined.

Lemma create_summary_too_short_witness :
  let out := create_summary (Some first_words) one_row
               (Some (text_only (lit "too short"))) 300 301 in
  status (fst out) = 200 /\
  json_of (fst out)
  = Some (JObj [("error", JStr (lit "this text is too short to summarize"))]%string) /\
  snd out = one_row /\
  create_summary (Some first_words) one_row (Some (mkBody None None None None)) 300 301
  = (mkResponse (jsonify (JObj [("error", JStr (lit "No text provided"))]%string)) 400,
     one_row).
Proof.
  apply (create_summary_too_short (Some first_words) one_row
           (text_only (lit "too short")) (lit "too short") 300 301).
  - reflexivity.
  - vm_compute. reflexivity.
Defined.

Lemma update_summary_provider_failure_witness :
  update_summary (Some provider_down) one_row 1
    (Some (mkBody (Some twelve_words) None None (Some (lit "Numbers")))) 200
  = (mkResponse (jsonify (JObj [("error", JStr (lit "model failure"))]%string)) 500,
     one_row).
Proof.
  apply (update_summary_provider_failure (Some provider_down) one_row 1
           (mkBody (Some twelve_words) None None (Some (lit "Numbers")))
           twelve_words (Exception (lit "model failure")) 200).
  - eexists. split; [left; reflexivity | reflexivity].
  - reflexivity.
  - reflexivity.
Defined.


(** What the client reads when the store cannot encode the title of a
    create, and when it cannot encode two characters in a row of its
    text. *)
Example create_summary_surrogate_title :
  create_summary (Some first_words) one_row
    (Some (mkBody (Some twelve_words) None None (Some [0xD800%N]))) 300 301
  = (mkResponse
       (jsonify (JObj [("error",
          JStr (lit "'utf-8' codec can't encode character '\ud800' in position 0: surrogates not allowed"))]%string))
       500,
     one_row).
Proof. vm_compute. reflexivity. Qed.

Example create_summary_surrogates_in_text :
  fst (create_summary (Some first_words) one_row
         (Some (text_only (lit "one two " ++ [0xDBFF%N; 0xDC00%N] ++ lit " three "
                           ++ twelve_words))) 300 301)
  = mkResponse
      (jsonify (JObj [("error",
         JStr (lit "'utf-8' codec can't encode characters in position 8-9: surrogates not allowed"))]%string))
      500.
Proof. vm_compute. reflexivity. Qed.


Lemma get_summaries_all_newest_first_witness :
  exists items,
    json_of (get_summaries
               (serve (Some first_words) []
                  [ POST_summaries (Some (text_only twelve_words)) 100 101;
                    POST_summaries (Some (text_only (lit "too short"))) 150 151;
                    PUT_summary 1 (Some (title_only (lit "Numbers"))) 200;
                    POST_summaries (Some (text_only twelve_words)) 300 301 ]))
    = Some (JArr items) /\
    List.length items = 2%nat.
Proof.
  apply (proj2 (get_summaries_all_newest_first (Some first_words))
           [ POST_summaries (Some (text_only twelve_words)) 100 101;
             POST_summaries (Some (text_only (lit "too short"))) 150 151;
             PUT_summary 1 (Some (title_only (lit "Numbers"))) 200;
             POST_summaries (Some (text_only twelve_words)) 300 301 ]).
  reflexivity.
Defined.

Lemma absent_record_not_found_witness :
  (get_summary one_row 999 = mkResponse error_page 404 /\
   delete_summary one_row 999 = (mkResponse error_page 404, one_row))
  /\
  (~ stored (snd (delete_summary one_row 1)) 1 /\
   get_summary (snd (delete_summary one_row 1)) 1 = mkResponse error_page 404).
Proof.
  split.
  - apply (proj1 (absent_record_not_found one_row 999 eq_refl)).
    intros [r [[<-|[]] Hid]]. simpl in Hid. discriminate Hid.
  - apply (proj2 (absent_record_not_found one_row 1 eq_refl)
             (fst (delete_summary one_row 1))).
    + apply surjective_pairing.
    + reflexivity.
Defined.

(** An id one past the largest key of the store is absent, and fetching
    or deleting it answers 500, not 404. *)
Lemma absent_record_not_found_counterexample :
  ~ stored one_row (2 ^ 63) /\
  get_summary one_row (2 ^ 63) = mkResponse error_page 500 /\
  delete_summary one_row (2 ^ 63) = (mkResponse error_page 500, one_row).
Proof.
  split; [|split; vm_compute; reflexivity].
  intros [r [[<-|[]] Hid]]. vm_compute in Hid. discriminate Hid.
Qed.

Lemma example_requests_clock : clock_monotone example_requests.
Proof.
  unfold clock_monotone. simpl.
  repeat (constructor; try (intros H; discriminate H)).
Defined.

Lemma created_at_fixed_and_not_after_updated_at_witness :
  (forall r, In r (serve (Some first_words) [] example_requests) ->
             created_at r <= updated_at r)
  /\
  created_at (mkSummary 1 twelve_words (lit "one two three four five ") 100 200
                        (lit "Numbers") (S754_finite false 5864531139766518 (-47)))
  = created_at (mkSummary 1 twelve_words (lit "one two three four five ") 100 101
                          (lit "Untitled") (S754_finite false 5864531139766518 (-47))).
Proof.
  split.
  - apply (proj2 (created_at_fixed_and_not_after_updated_at (Some first_words)
                    example_requests) example_requests_clock).
  - apply (proj1 (created_at_fixed_and_not_after_updated_at (Some first_words)
                    example_requests)
             [ POST_summaries (Some (text_only twelve_words)) 100 101 ]
             [ PUT_summary 1 (Some (title_only (lit "Numbers"))) 200;
               POST_summaries (Some (text_only twelve_words)) 300 301;
               GET_summaries;
               DELETE_summary 2 ]).
    + reflexivity.
    + vm_compute. left. reflexivity.
    + simpl. intros [H|[H|[H|[H|[]]]]]; discriminate H.
    + vm_compute. left. reflexivity.
    + reflexivity.
Defined.

(** One create whose two column defaults read a clock that stepped back
    stores a record updated before it was created. *)
Lemma created_at_fixed_and_not_after_updated_at_counterexample :
  exists r,
    In r (serve (Some first_words) []
            [POST_summaries (Some (text_only twelve_words)) 101 100]) /\
    updated_at r < created_at r.
Proof.
  eexists. split; [vm_compute; left; reflexivity | reflexivity].
Qed.

Lemma update_summary_no_minimum_words_witness :
  (exists row,
      update_summary (Some first_words) one_row 1 (Some (text_only (lit "a b c"))) 200
      = (mkResponse (jsonify (to_dict row)) 200, commit_update one_row row) /\
      query_get (commit_update one_row row) 1 = Some row /\
      original_text row = lit "a b c" /\
      summary_text row = lit "a b c " /\
      spec_compression_ratio (lit "a b c ") (lit "a b c")
      = Return (compression_ratio row))
  /\
  update_summary (Some first_words) one_row 1 (Some (text_only (lit "   "))) 200
  = (mkResponse (jsonify (JObj [("error", JStr (lit "division by zero"))]%string)) 500,
     one_row).
Proof.
  split.
  - apply (proj1 (proj2 (update_summary_no_minimum_words (Some first_words) one_row 1
             (mkSummary 1 twelve_words (lit "one two three four five ") 100 101
                        (lit "Untitled") (S754_finite false 5864531139766518 (-47)))
             (text_only (lit "a b c")) (lit "a b c") (lit "a b c ") 200
             eq_refl eq_refl eq_refl eq_refl))); reflexivity.
  - apply (proj2 (proj2 (update_summary_no_minimum_words (Some first_words) one_row 1
             (mkSummary 1 twelve_words (lit "one two three four five ") 100 101
                        (lit "Untitled") (S754_finite false 5864531139766518 (-47)))
             (text_only (lit "   ")) (lit "   ") [] 200
             eq_refl eq_refl eq_refl eq_refl))).
    reflexivity.
Defined.

(* ================================================================= *)
(** ** Further properties of the handlers *)

Section Coverage.

Variable summarizer : option pipeline.

(** The five ways out of [create_summary].  The ratio never raises there:
    the text has at least 10 words when it is computed. *)
Lemma create_summary_branches tbl data t_created t_updated :
  let out := create_summary summarizer tbl data t_created t_updated in
  ((data = None \/ exists d, data = Some d /\ j_text d = None) /\
   out = (mkResponse (jsonify (JObj [("error", JStr (lit "No text provided"))]%string)) 400,
          tbl))
  \/
  (exists d text,
      data = Some d /\ j_text d = Some text /\ word_count text < 10 /\
      out = (mkResponse
               (jsonify (JObj [("error", JStr (lit "this text is too short to summarize"))]%string))
               200,
             tbl))
  \/
  (exists d text e,
      data = Some d /\ j_text d = Some text /\ 10 <= word_count text /\
      call summarizer text (dict_get (j_max_length d) 130) (dict_get (j_min_length d) 30)
      = Raise e /\
      out = (mkResponse (jsonify (JObj [("error", JStr (str_of_exn e))]%string)) 500, tbl))
  \/
  (exists d text generated_summary e,
      data = Some d /\ j_text d = Some text /\ 10 <= word_count text /\
      call summarizer text (dict_get (j_max_length d) 130) (dict_get (j_min_length d) 30)
      = Return generated_summary /\
      (encodable text = false \/ encodable generated_summary = false \/
       encodable (dict_get (j_title d) (lit "Untitled")) = false) /\
      out = (mkResponse (jsonify (JObj [("error", JStr (str_of_exn e))]%string)) 500, tbl))
  \/
  (exists d text generated_summary ratio,
      data = Some d /\ j_text d = Some text /\ 10 <= word_count text /\
      call summarizer text (dict_get (j_max_length d) 130) (dict_get (j_min_length d) 30)
      = Return generated_summary /\
      (encodable text = true /\ encodable generated_summary = true /\
       encodable (dict_get (j_title d) (lit "Untitled")) = true) /\
      ratio_of generated_summary text = Return ratio /\
      let row := mkSummary (next_id tbl) text generated_summary t_created t_updated
                           (dict_get (j_title d) (lit "Untitled")) ratio in
      out = (mkResponse (jsonify (to_dict row)) 201, tbl ++ [row])).
Proof.
  cbv zeta. unfold create_summary.
  destruct data as [d|]; [|left; split; [now left | reflexivity]].
  destruct (j_text d) as [text|] eqn:Etext;
    [|left; split; [right; now exists d | reflexivity]].
  right. rewrite len_split.
  destruct (word_count text <? 10) eqn:Ewords.
  - apply Z.ltb_lt in Ewords. left. exists d, text. repeat split; assumption.
  - apply Z.ltb_ge in Ewords. right.
    destruct (call summarizer text _ _) as [generated_summary|e] eqn:Ecall; simpl.
    + right.
      destruct (truediv_positive (word_count generated_summary) (word_count text))
        as [q Hq]; [lia|].
      destruct (ratio_of generated_summary text) as [ratio|e] eqn:Hratio.
      2: { exfalso. unfold ratio_of in Hratio. rewrite !len_split, Hq in Hratio.
           discriminate Hratio. }
      simpl.
      destruct (insert_cases tbl text generated_summary
                  (dict_get (j_title d) (lit "Untitled")) ratio t_created t_updated)
        as [(Ho & Hs & Ht & Hins)|[Hbad [e Hins]]]; rewrite Hins.
      * right. exists d, text, generated_summary, ratio.
        repeat split; assumption.
      * left. exists d, text, generated_summary, e. repeat split; assumption.
    + left. exists d, text, e. repeat split; assumption.
Qed.

Ltac same_request :=
  repeat match goal with
         | H1 : ?x = Some ?a, H2 : ?x = Some ?b |- _ =>
             assert (a = b) by congruence; subst b; clear H2
         | H1 : ?x = Return ?a, H2 : ?x = Return ?b |- _ =>
             assert (a = b) by congruence; subst b; clear H2
         end.

(** X1. For a body that is JSON null or an object with string fields,
    create answers 201 exactly when the body has a text of at least 10
    whitespace-separated words, the provider returns, and the store can
    encode the text, the summary and the title; no text that reaches the
    ratio can make it divide by zero. *)
Theorem create_summary_created_iff :
  forall (tbl : table) (data : option body) (t_created t_updated : datetime),
    status (fst (create_summary summarizer tbl data t_created t_updated)) = 201
    <->
    exists d text generated_summary,
      data = Some d /\ j_text d = Some text /\ 10 <= word_count text /\
      call summarizer text (dict_get (j_max_length d) 130) (dict_get (j_min_length d) 30)
      = Return generated_summary /\
      encodable text = true /\
      encodable generated_summary = true /\
      encodable (dict_get (j_title d) (lit "Untitled")) = true.
Proof.
  intros tbl data t_created t_updated.
  destruct (create_summary_branches tbl data t_created t_updated)
    as [[Hno Hout]|[(d & text & Hd & Ht & Hw & Hout)
       |[(d & text & e & Hd & Ht & Hw & Hc & Hout)
        |[(d & text & g & e & Hd & Ht & Hw & Hc & Hbad & Hout)
         |(d & text & g & ratio & Hd & Ht & Hw & Hc & Hok & Hr & Hout)]]]];
    rewrite Hout; simpl; split; try discriminate; try (intros _; reflexivity).
  - intros (d & text & g & Hd & Ht & _). destruct Hno as [Hno|(d' & Hd' & Hno)];
      congruence.
  - intros (d' & text' & g & Hd' & Ht' & Hw' & _). subst data.
    inversion Hd'; subst d'. same_request. lia.
  - intros (d' & text' & g & Hd' & Ht' & _ & Hc' & _). subst data.
    inversion Hd'; subst d'. same_request. congruence.
  - intros (d' & text' & g' & Hd' & Ht' & _ & Hc' & Eo & Es & Et). subst data.
    inversion Hd'; subst d'. same_request.
    destruct Hbad as [Hbad|[Hbad|Hbad]]; congruence.
  - intros _. destruct Hok as (Eo & Es & Et). exists d, text, g.
    repeat split; assumption.
Qed.

(** X2. The record a successful create stores: when the text has at least
    10 words, the provider returns and the store can encode the three
    texts, the record takes a key no stored record has, the text as
    submitted, the provider's output, the title of the body or 'Untitled',
    and the two clock readings; it is appended to the table, whose rows
    are otherwise as before. *)
Theorem create_summary_new_record :
  forall (tbl : table) (d : body) (text generated_summary : str)
         (t_created t_updated : datetime),
    j_text d = Some text ->
    10 <= word_count text ->
    call summarizer text (dict_get (j_max_length d) 130) (dict_get (j_min_length d) 30)
    = Return generated_summary ->
    encodable text = true ->
    encodable generated_summary = true ->
    encodable (dict_get (j_title d) (lit "Untitled")) = true ->
    exists row,
      create_summary summarizer tbl (Some d) t_created t_updated
      = (mkResponse (jsonify (to_dict row)) 201, tbl ++ [row]) /\
      ~ stored tbl (id row) /\
      original_text row = text /\
      summary_text row = generated_summary /\
      title row = match j_title d with Some t => t | None => lit "Untitled" end /\
      created_at row = t_created /\
      updated_at row = t_updated.
Proof.
  intros tbl d text generated_summary t_created t_updated Htext Hwords Hcall Eo Es Et.
  destruct (create_summary_branches tbl (Some d) t_created t_updated)
    as [[Hno _]|[(d' & text' & Hd & Ht & Hw & _)
       |[(d' & text' & e & Hd & Ht & _ & Hc & _)
        |[(d' & text' & g & e & Hd & Ht & _ & Hc & Hbad & _)
         |(d' & text' & g & ratio & Hd & Ht & _ & Hc & _ & _ & Hout)]]]];
    try (inversion Hd; subst d'; same_request).
  - exfalso. destruct Hno as [Hno|(d' & Hd' & Hno)]; congruence.
  - exfalso. lia.
  - exfalso. congruence.
  - exfalso. destruct Hbad as [Hbad|[Hbad|Hbad]]; congruence.
  - eexists. split; [exact Hout|]. simpl.
    split; [apply next_id_fresh|]. repeat split.
Qed.

(** X3. For a body that is JSON null or an object with string fields,
    create answers 500 exactly when the text has at least 10 words and
    either the provider call raises, and then the response carries the
    text of the exception, or the provider returns and the store cannot
    encode the text, the summary or the title; either way nothing is
    stored. *)
Theorem create_summary_provider_failure :
  forall (tbl : table) (data : option body) (t_created t_updated : datetime),
    status (fst (create_summary summarizer tbl data t_created t_updated)) = 500
    <->
    exists d text,
      data = Some d /\ j_text d = Some text /\ 10 <= word_count text /\
      snd (create_summary summarizer tbl data t_created t_updated) = tbl /\
      ((exists e,
           call summarizer text (dict_get (j_max_length d) 130)
                (dict_get (j_min_length d) 30) = Raise e /\
           fst (create_summary summarizer tbl data t_created t_updated)
           = mkResponse (jsonify (JObj [("error", JStr (str_of_exn e))]%string)) 500)
       \/
       (exists generated_summary,
           call summarizer text (dict_get (j_max_length d) 130)
                (dict_get (j_min_length d) 30) = Return generated_summary /\
           (encodable text = false \/ encodable generated_summary = false \/
            encodable (dict_get (j_title d) (lit "Untitled")) = false))).
Proof.
  intros tbl data t_created t_updated.
  destruct (create_summary_branches tbl data t_created t_updated)
    as [[Hno Hout]|[(d & text & Hd & Ht & Hw & Hout)
       |[(d & text & e & Hd & Ht & Hw & Hc & Hout)
        |[(d & text & g & e & Hd & Ht & Hw & Hc & Hbad & Hout)
         |(d & text & g & ratio & Hd & Ht & Hw & Hc & Hok & Hr & Hout)]]]];
    rewrite Hout; simpl; split; try discriminate; try (intros _; reflexivity).
  - intros (d & text & Hd & Ht & _). destruct Hno as [Hno|(d' & Hd' & Hno)];
      congruence.
  - intros (d' & text' & Hd' & Ht' & Hw' & _). subst data.
    inversion Hd'; subst d'. same_request. lia.
  - intros _. exists d, text. repeat split; try assumption.
    left. exists e. split; [exact Hc | reflexivity].
  - intros _. exists d, text. repeat split; try assumption.
    right. exists g. split; assumption.
  - intros (d' & text' & Hd' & Ht' & _ & _ & [(e & Hc' & _)|(g' & Hc' & Hbad)]);
      subst data; inversion Hd'; subst d'; same_request; [congruence|].
    destruct Hok as (Eo & Es & Et). destruct Hbad as [Hbad|[Hbad|Hbad]]; congruence.
Qed.

(** X4. For a body that [get_json()] has returned as JSON null or as an
    object with string fields, create answers 400 exactly when the body
    is null or has no [text] key; the response is the 'No text provided'
    document, the provider is not consulted and nothing is stored. *)
Theorem create_summary_no_text_iff :
  forall (tbl : table) (data : option body) (t_created t_updated : datetime),
    status (fst (create_summary summarizer tbl data t_created t_updated)) = 400
    <->
    (match data with Some d => j_text d = None | None => True end /\
     create_summary summarizer tbl data t_created t_updated
     = (mkResponse (jsonify (JObj [("error", JStr (lit "No text provided"))]%string)) 400,
        tbl)).
Proof.
  intros tbl data t_created t_updated.
  destruct (create_summary_branches tbl data t_created t_updated)
    as [[Hno Hout]|[(d & text & Hd & Ht & Hw & Hout)
       |[(d & text & e & Hd & Ht & Hw & Hc & Hout)
        |[(d & text & g & e & Hd & Ht & Hw & Hc & Hbad & Hout)
         |(d & text & g & ratio & Hd & Ht & Hw & Hc & Hok & Hr & Hout)]]]];
    rewrite Hout; simpl; split; try discriminate;
    try (intros _; reflexivity); try (intros [_ H]; inversion H).
  intros _. split; [|reflexivity].
  destruct Hno as [->|(d & -> & Hno)]; [exact I | exact Hno].
Qed.

(** X5. Primary keys are unique: whatever requests are served from the
    empty table, no two stored records have the same [id]. *)
Theorem stored_ids_unique :
  forall (reqs : list request) (r1 r2 : Summary),
    In r1 (serve summarizer [] reqs) ->
    In r2 (serve summarizer [] reqs) ->
    id r1 = id r2 ->
    r1 = r2.
Proof.
  intros reqs r1 r2 H1 H2 Hid.
  assert (Hnd : NoDup (map id (serve summarizer [] reqs))).
  { apply serve_NoDup. constructor. }
  pose proof (query_get_unique _ _ Hnd H1) as G1.
  pose proof (query_get_unique _ _ Hnd H2) as G2.
  rewrite Hid in G1. congruence.
Qed.

(** X6. Reads follow writes: after a create that answered 201, fetching
    the id of the returned document answers 200 with that document; after
    an update that answered 200, fetching the id answers with the very
    response of the update. *)
Theorem get_summary_after_write :
  forall (tbl : table) (resp : response) (tbl' : table),
    (forall data t_created t_updated,
        create_summary summarizer tbl data t_created t_updated = (resp, tbl') ->
        status resp = 201 ->
        exists row,
          content resp = jsonify (to_dict row) /\
          get_summary tbl' (id row) = mkResponse (jsonify (to_dict row)) 200)
    /\
    (forall summary_id data now,
        update_summary summarizer tbl summary_id data now = (resp, tbl') ->
        status resp = 200 ->
        get_summary tbl' summary_id = resp).
Proof.
  intros tbl resp tbl'. split.
  - intros data t_created t_updated H Hst.
    destruct (create_summary_201 _ _ _ _ _ _ _ H Hst)
      as (d & text & g & ratio & _ & _ & _ & _ & Hresp & Htbl).
    eexists. rewrite Hresp, Htbl. split; [reflexivity|].
    unfold get_summary.
    erewrite get_or_404_found; [reflexivity|].
    now apply query_get_inserted.
  - intros summary_id data now H Hst.
    destruct (update_summary_200 _ _ _ _ _ _ _ H Hst)
      as (summary & d & replaced & Hget & _ & Hrep & Hresp & Htbl).
    destruct (replace_text_keeps _ _ _ _ Hrep) as [Hid _].
    rewrite Hresp, Htbl. unfold get_summary.
    erewrite get_or_404_found; [reflexivity|].
    apply query_get_updated with (summary := summary); [exact Hget|].
    destruct (j_title d); exact Hid.
Qed.

(** X7. A request leaves every stored record it does not address as it
    was: a create changes no stored record, an update or a delete none but
    the one of its path. *)
Theorem other_records_untouched :
  forall (tbl : table) (req : request) (j : Z),
    stored tbl j ->
    target req <> Some j ->
    query_get (snd (handle summarizer tbl req)) j = query_get tbl j.
Proof.
  intros tbl req j Hstored Htarget.
  destruct (stored_query_get _ _ Hstored) as [r Hget].
  destruct req as [data t_created t_updated| |i|i data now|i]; simpl;
    try reflexivity.
  - destruct (create_summary_cases summarizer tbl data t_created t_updated)
      as [[_ (row & Htbl & _)]|[_ Htbl]]; rewrite Htbl; [|reflexivity].
    now rewrite query_get_app, Hget.
  - destruct (update_summary_cases summarizer tbl i data now)
      as [Htbl|(summary & row & Hi & Htbl & Hid & _)]; rewrite Htbl; [reflexivity|].
    rewrite query_get_commit_update.
    pose proof (query_get_some _ _ _ Hi) as [_ Hsi].
    destruct (j =? id row) eqn:E; [|reflexivity].
    apply Z.eqb_eq in E. exfalso. apply Htarget. simpl. congruence.
  - destruct (delete_summary_cases tbl i) as [Htbl|(summary & Hi & Htbl)];
      rewrite Htbl; [reflexivity|].
    rewrite query_get_commit_delete.
    pose proof (query_get_some _ _ _ Hi) as [_ Hsi].
    destruct (j =? id summary) eqn:E; [|reflexivity].
    apply Z.eqb_eq in E. exfalso. apply Htarget. simpl. congruence.
Qed.

(** X8. An update of an id that no stored record has fails at the lookup,
    before the body is read: it answers 404 when the id fits the key of
    the store and 500 when it does not; the provider is not called and
    nothing is stored, whatever the body holds. *)
Theorem update_summary_absent :
  forall (tbl : table) (summary_id : Z) (data : option body) (now : datetime),
    ~ stored tbl summary_id ->
    update_summary summarizer tbl summary_id data now
    = (mkResponse error_page (if fits summary_id then 404 else 500), tbl).
Proof.
  intros tbl summary_id data now Habsent. apply query_get_none in Habsent.
  unfold update_summary. rewrite (get_or_404_absent _ _ Habsent).
  now destruct (fits summary_id).
Qed.

(** X9. What an update that answered 200 has committed: the record keeps
    its [id] and [created_at], [updated_at] is the clock reading of the
    request, the title is the one of the body or else the old one, the
    texts and the ratio are the old ones when the body has no text and the
    original is the new text when it has one; no key of the table
    changes. *)
Theorem update_summary_committed :
  forall (tbl : table) (summary_id : Z) (d : body) (now : datetime)
         (resp : response) (tbl' : table),
    update_summary summarizer tbl summary_id (Some d) now = (resp, tbl') ->
    status resp = 200 ->
    exists old row,
      query_get tbl summary_id = Some old /\
      resp = mkResponse (jsonify (to_dict row)) 200 /\
      query_get tbl' summary_id = Some row /\
      id row = summary_id /\
      created_at row = created_at old /\
      updated_at row = now /\
      title row = match j_title d with Some t => t | None => title old end /\
      match j_text d with
      | Some text => original_text row = text
      | None => original_text row = original_text old /\
                summary_text row = summary_text old /\
                compression_ratio row = compression_ratio old
      end /\
      map id tbl' = map id tbl.
Proof.
  intros tbl summary_id d now resp tbl' H Hst.
  destruct (update_summary_200 _ _ _ _ _ _ _ H Hst)
    as (old & d' & replaced & Hget & Hd & Hrep & Hresp & Htbl).
  inversion Hd; subst d'. clear Hd.
  pose proof (query_get_some _ _ _ Hget) as [_ Hold].
  destruct (replace_text_keeps _ _ _ _ Hrep) as [Hid Hcreated].
  exists old. eexists. split; [exact Hget|]. split; [exact Hresp|].
  rewrite Htbl. split.
  { apply query_get_updated with (summary := old); [exact Hget|].
    destruct (j_title d); exact Hid. }
  rewrite map_id_commit_update.
  unfold replace_text in Hrep.
  destruct (j_text d) as [text|].
  - destruct (call summarizer text _ _) as [g|e]; simpl in Hrep; [|discriminate].
    destruct (ratio_of g text) as [ratio|e]; simpl in Hrep; [|discriminate].
    inversion Hrep; subst replaced.
    destruct (j_title d); simpl; repeat split; assumption.
  - inversion Hrep; subst replaced.
    destruct (j_title d); simpl; repeat split; assumption.
Qed.

Lemma update_summary_status tbl summary_id data now :
  let out := update_summary summarizer tbl summary_id data now in
  status (fst out) = 200 \/ snd out = tbl.
Proof.
  cbv zeta. unfold update_summary.
  destruct (get_or_404 tbl summary_id) as [summary| |e]; [|now right|now right].
  destruct data as [d|]; [|now right].
  destruct (replace_text summarizer summary d); [|now right].
  destruct (flush_update _ _); [now left | now right].
Qed.

Lemma delete_summary_status tbl summary_id :
  let out := delete_summary tbl summary_id in
  status (fst out) = 200 \/ snd out = tbl.
Proof.
  cbv zeta. unfold delete_summary.
  destruct (get_or_404 tbl summary_id); [now left | now right | now right].
Qed.

(** X10. A request that answers neither 200 nor 201 has stored nothing:
    after a 400, a 404 or a 500 the table is the one before the request. *)
Theorem failed_request_changes_nothing :
  forall (tbl : table) (req : request),
    status (fst (handle summarizer tbl req)) <> 200 ->
    status (fst (handle summarizer tbl req)) <> 201 ->
    snd (handle summarizer tbl req) = tbl.
Proof.
  intros tbl req H200 H201.
  destruct req as [data t_created t_updated| |i|i data now|i]; simpl in *;
    try reflexivity.
  - destruct (create_summary_cases summarizer tbl data t_created t_updated)
      as [[Hst _]|[_ Htbl]]; [contradiction | exact Htbl].
  - destruct (update_summary_status tbl i data now) as [Hst|Htbl];
      [contradiction | exact Htbl].
  - destruct (delete_summary_status tbl i) as [Hst|Htbl];
      [contradiction | exact Htbl].
Qed.

Lemma commit_delete_absent tbl s :
  ~ In (id s) (map id tbl) -> commit_delete tbl s = tbl.
Proof.
  unfold commit_delete. induction tbl as [|r tbl IH]; simpl; intros Hfresh;
    [reflexivity|].
  destruct (id r =? id s) eqn:E.
  - apply Z.eqb_eq in E. exfalso. apply Hfresh. now left.
  - simpl. f_equal. apply IH. intros Hin. apply Hfresh. now right.
Qed.

(** With distinct keys, deleting a stored row takes exactly that row out. *)
Lemma commit_delete_perm tbl s :
  NoDup (map id tbl) -> In s tbl -> Permutation tbl (s :: commit_delete tbl s).
Proof.
  induction tbl as [|r tbl IH]; intros Hnd Hin; [destruct Hin|].
  simpl in Hnd. apply NoDup_cons_iff in Hnd. destruct Hnd as [Hfresh Hnd].
  destruct Hin as [->|Hin].
  - unfold commit_delete. simpl. rewrite Z.eqb_refl. simpl.
    fold (commit_delete tbl s). now rewrite commit_delete_absent.
  - assert (Hne : (id r =? id s) = false).
    { apply Z.eqb_neq. intros E. apply Hfresh. rewrite E. now apply in_map. }
    unfold commit_delete. simpl. rewrite Hne. simpl. fold (commit_delete tbl s).
    apply perm_trans with (r :: s :: commit_delete tbl s).
    + apply perm_skip. now apply IH.
    + apply perm_swap.
Qed.

(** X11. In a table with distinct keys, the delete of a stored id answers
    200 with the confirmation message and takes exactly one record out,
    the one with that id: the table before is the deleted record plus the
    table after. *)
Theorem delete_summary_removes_one :
  forall (tbl : table) (summary_id : Z),
    NoDup (map id tbl) ->
    stored tbl summary_id ->
    exists gone tbl',
      delete_summary tbl summary_id
      = (mkResponse
           (jsonify (JObj [("message", JStr (lit "Summary deleted successfully"))]%string))
           200,
         tbl') /\
      In gone tbl /\
      id gone = summary_id /\
      Permutation tbl (gone :: tbl') /\
      S (List.length tbl') = List.length tbl.
Proof.
  intros tbl summary_id Hnd Hstored.
  destruct (stored_query_get _ _ Hstored) as [gone Hget].
  pose proof (query_get_some _ _ _ Hget) as [Hin Hid].
  exists gone, (commit_delete tbl gone).
  unfold delete_summary. rewrite (get_or_404_found _ _ _ Hget).
  pose proof (commit_delete_perm tbl gone Hnd Hin) as Hperm.
  repeat split; try assumption.
  apply Permutation_length in Hperm. simpl in Hperm. now symmetry.
Qed.

Lemma order_by_created_at_desc_app tbl row :
  order_by_created_at_desc (tbl ++ [row])
  = insert_desc row (order_by_created_at_desc tbl).
Proof.
  unfold order_by_created_at_desc. now rewrite fold_left_app.
Qed.

Lemma insert_desc_newest row rows :
  Forall (fun r => created_at r < created_at row) rows ->
  insert_desc row rows = row :: rows.
Proof.
  intros Hall. destruct rows as [|r rows]; [reflexivity|].
  inversion Hall as [|? ? Hr _]; subst. simpl.
  apply Z.ltb_lt in Hr. now rewrite Hr.
Qed.

(** X12. A record created later than every stored one comes first in the
    list: after such a create has answered 201, the list operation answers
    with the new document followed by the entries it answered with
    before. *)
Theorem get_summaries_newest_at_head :
  forall (tbl : table) (data : option body) (t_created t_updated : datetime)
         (resp : response) (tbl' : table),
    (forall r, In r tbl -> created_at r < t_created) ->
    create_summary summarizer tbl data t_created t_updated = (resp, tbl') ->
    status resp = 201 ->
    exists doc items,
      content resp = jsonify doc /\
      get_summaries tbl = mkResponse (jsonify (JArr items)) 200 /\
      get_summaries tbl' = mkResponse (jsonify (JArr (doc :: items))) 200.
Proof.
  intros tbl data t_created t_updated resp tbl' Hnew H Hst.
  destruct (create_summary_201 _ _ _ _ _ _ _ H Hst)
    as (d & text & g & ratio & _ & _ & _ & _ & Hresp & Htbl).
  eexists. exists (map to_dict (order_by_created_at_desc tbl)).
  rewrite Hresp, Htbl. split; [reflexivity|]. split; [reflexivity|].
  unfold get_summaries. rewrite order_by_created_at_desc_app.
  rewrite insert_desc_newest; [reflexivity|].
  apply (Permutation_Forall (Permutation_sym (order_by_created_at_desc_perm tbl))).
  apply Forall_forall. intros r Hin. simpl. now apply Hnew.
Qed.

(** The count of rows over a sequence of requests, from a table with
    distinct keys. *)
Lemma serve_count reqs :
  forall tbl,
    NoDup (map id tbl) ->
    (List.length (serve summarizer tbl reqs)
     + List.length (filter deleted (responses summarizer tbl reqs))
     = List.length tbl
       + List.length (filter created (responses summarizer tbl reqs)))%nat.
Proof.
  induction reqs as [|req reqs IH]; intros tbl Hnd; simpl; [lia|].
  pose proof (IH _ (handle_NoDup summarizer tbl req Hnd)) as Hrest.
  destruct req as [data t_created t_updated| |i|i data now|i]; simpl in *.
  - destruct (create_summary_cases summarizer tbl data t_created t_updated)
      as [[Hst (row & Htbl & _)]|[Hst Htbl]]; rewrite Htbl in *;
      unfold created at 1; simpl.
    + rewrite Hst. simpl. rewrite length_app in Hrest. simpl in Hrest. lia.
    + apply Z.eqb_neq in Hst. rewrite Hst. exact Hrest.
  - exact Hrest.
  - exact Hrest.
  - destruct (update_summary_cases summarizer tbl i data now)
      as [Htbl|(summary & row & _ & Htbl & _)]; rewrite Htbl in *;
      [exact Hrest|].
    unfold commit_update in Hrest at 3. rewrite length_map in Hrest. exact Hrest.
  - unfold delete_summary in *.
    destruct (query_get tbl i) as [gone|] eqn:Eget.
    2: { rewrite (get_or_404_absent _ _ Eget) in *.
         destruct (fits i); simpl in *; exact Hrest. }
    rewrite (get_or_404_found _ _ _ Eget) in *. simpl in *.
    pose proof (query_get_some _ _ _ Eget) as [Hin _].
    pose proof (Permutation_length (commit_delete_perm tbl gone Hnd Hin)) as Hlen.
    simpl in Hlen. lia.
Qed.

(** X13. Served from the empty table, the number of stored records is the
    number of creates that answered 201 less the number of deletes that
    answered 200, whatever other requests were served in between. *)
Theorem stored_record_count :
  forall reqs : list request,
    (List.length (serve summarizer [] reqs)
     + List.length (filter deleted (responses summarizer [] reqs))
     = List.length (filter created (responses summarizer [] reqs)))%nat.
Proof.
  intros reqs. apply (serve_count reqs []). constructor.
Qed.

(** X14. An update with a new text of a stored record whose texts the
    store can encode answers 500 exactly when the provider call raises, or the
    text has no word, or the provider returns and the store cannot encode
    the new text, its summary or the title supplied; a text that is
    merely short is no reason. *)
Theorem update_summary_error_iff :
  forall (tbl : table) (summary_id : Z) (old : Summary) (d : body) (text : str)
         (now : datetime),
    query_get tbl summary_id = Some old ->
    encodable (original_text old) = true ->
    encodable (summary_text old) = true ->
    encodable (title old) = true ->
    j_text d = Some text ->
    (status (fst (update_summary summarizer tbl summary_id (Some d) now)) = 500
     <->
     (exists e,
         call summarizer text (dict_get (j_max_length d) 130) (dict_get (j_min_length d) 30)
         = Raise e)
     \/ word_count text = 0
     \/ (exists generated_summary,
            call summarizer text (dict_get (j_max_length d) 130)
                 (dict_get (j_min_length d) 30) = Return generated_summary /\
            (encodable text = false \/ encodable generated_summary = false \/
             encodable (dict_get (j_title d) (title old)) = false))).
Proof.
  intros tbl summary_id old d text now Hget Holdo Holds Holdt Htext.
  unfold update_summary, replace_text. rewrite (get_or_404_found _ _ _ Hget), Htext.
  destruct (call summarizer text _ _) as [g|e]; simpl.
  2: { split; [|reflexivity]. intros _. left. now exists e. }
  unfold ratio_of. rewrite !len_split.
  destruct (Z.eq_dec (word_count text) 0) as [Hzero|Hpos].
  { rewrite Hzero. simpl. split; [intros _; right; now left | reflexivity]. }
  destruct (truediv_positive (word_count g) (word_count text)) as [q Hq].
  { pose proof (word_count_nonneg text). lia. }
  rewrite Hq. simpl.
  match goal with
  | |- context [flush_update old ?r] => set (row := r)
  end.
  assert (Hrow : original_text row = text /\ summary_text row = g /\
                 title row = dict_get (j_title d) (title old)).
  { unfold row. destruct (j_title d); simpl; repeat split. }
  destruct Hrow as (Ro & Rs & Rt).
  destruct (flush_update_cases old row Holdo Holds Holdt)
    as [(Hflush & Eo & Es & Et)|[[e Hflush] Hbad]]; rewrite Hflush; simpl.
  - rewrite Ro, Rs, Rt in *. split; [discriminate|].
    intros [[e He]|[Hzero|(g' & Hg & Hbad)]]; [discriminate | contradiction|].
    inversion Hg; subst g'. exfalso.
    destruct Hbad as [Hbad|[Hbad|Hbad]]; congruence.
  - rewrite Ro, Rs, Rt in Hbad. split; [|reflexivity].
    intros _. right. right. exists g. split; [reflexivity | exact Hbad].
Qed.

End Coverage.

(** *** At concrete requests *)

Lemma create_summary_created_iff_witness :
  status (fst (create_summary (Some first_words) one_row
                 (Some (text_only twelve_words)) 300 301)) = 201.
Proof.
  apply (proj2 (create_summary_created_iff (Some first_words) one_row
                  (Some (text_only twelve_words)) 300 301)).
  exists (text_only twelve_words), twelve_words, (lit "one two three four five ").
  split; [reflexivity|]. split; [reflexivity|]. split; [vm_compute; discriminate|].
  repeat split; vm_compute; reflexivity.
Defined.

Lemma create_summary_new_record_witness :
  exists row,
    create_summary (Some first_words) one_row
      (Some (mkBody (Some twelve_words) (Some 60) None (Some (lit "Numbers")))) 300 301
    = (mkResponse (jsonify (to_dict row)) 201, one_row ++ [row]) /\
    ~ stored one_row (id row) /\
    original_text row = twelve_words /\
    summary_text row = lit "one two three four five " /\
    title row = lit "Numbers" /\
    created_at row = 300 /\
    updated_at row = 301.
Proof.
  apply (create_summary_new_record (Some first_words) one_row
           (mkBody (Some twelve_words) (Some 60) None (Some (lit "Numbers")))
           twelve_words (lit "one two three four five ") 300 301).
  - reflexivity.
  - vm_compute. discriminate.
  - vm_compute. reflexivity.
  - vm_compute. reflexivity.
  - vm_compute. reflexivity.
  - vm_compute. reflexivity.
Defined.

(** The provider is down; the provider answers and the title is a lone
    surrogate. *)
Lemma create_summary_provider_failure_witness :
  status (fst (create_summary (Some provider_down) one_row
                 (Some (text_only twelve_words)) 300 301)) = 500
  /\
  status (fst (create_summary (Some first_words) one_row
                 (Some (mkBody (Some twelve_words) None None (Some [0xD800%N])))
                 300 301)) = 500.
Proof.
  split.
  - apply (proj2 (create_summary_provider_failure (Some provider_down) one_row
                    (Some (text_only twelve_words)) 300 301)).
    exists (text_only twelve_words), twelve_words.
    split; [reflexivity|]. split; [reflexivity|].
    split; [vm_compute; discriminate|]. split; [vm_compute; reflexivity|].
    left. exists (Exception (lit "model failure")).
    split; vm_compute; reflexivity.
  - apply (proj2 (create_summary_provider_failure (Some first_words) one_row
                    (Some (mkBody (Some twelve_words) None None (Some [0xD800%N])))
                    300 301)).
    exists (mkBody (Some twelve_words) None None (Some [0xD800%N])), twelve_words.
    split; [reflexivity|]. split; [reflexivity|].
    split; [vm_compute; discriminate|]. split; [vm_compute; reflexivity|].
    right. exists (lit "one two three four five ").
    split; [vm_compute; reflexivity|]. right. right. reflexivity.
Defined.

Lemma create_summary_no_text_iff_witness :
  status (fst (create_summary (Some first_words) one_row
                 (Some (title_only (lit "Numbers"))) 300 301)) = 400.
Proof.
  apply (proj2 (create_summary_no_text_iff (Some first_words) one_row
                  (Some (title_only (lit "Numbers"))) 300 301)).
  split; reflexivity.
Defined.

Lemma stored_ids_unique_witness :
  hd (mkSummary 0 [] [] 0 0 [] (S754_zero false))
     (serve (Some first_words) [] example_requests)
  = mkSummary 1 twelve_words (lit "one two three four five ") 100 200
              (lit "Numbers") (S754_finite false 5864531139766518 (-47)).
Proof.
  apply (stored_ids_unique (Some first_words) example_requests).
  - vm_compute. left. reflexivity.
  - vm_compute. left. reflexivity.
  - vm_compute. reflexivity.
Defined.

Lemma get_summary_after_write_witness :
  (exists row,
      content (fst (create_summary (Some first_words) []
                      (Some (text_only twelve_words)) 100 101))
      = jsonify (to_dict row) /\
      get_summary (snd (create_summary (Some first_words) []
                          (Some (text_only twelve_words)) 100 101)) (id row)
      = mkResponse (jsonify (to_dict row)) 200)
  /\
  get_summary (snd (update_summary (Some first_words) one_row 1
                      (Some (text_only (lit "a b c"))) 200)) 1
  = fst (update_summary (Some first_words) one_row 1
           (Some (text_only (lit "a b c"))) 200).
Proof.
  split.
  - apply (proj1 (get_summary_after_write (Some first_words) [] _ _)
             (Some (text_only twelve_words)) 100 101).
    + apply surjective_pairing.
    + vm_compute. reflexivity.
  - apply (proj2 (get_summary_after_write (Some first_words) one_row _ _)
             1 (Some (text_only (lit "a b c"))) 200).
    + apply surjective_pairing.
    + vm_compute. reflexivity.
Defined.

Lemma other_records_untouched_witness :
  query_get (snd (handle (Some first_words) one_row
                    (POST_summaries (Some (text_only twelve_words)) 300 301))) 1
  = query_get one_row 1
  /\
  query_get (snd (handle (Some first_words)
                    (one_row ++ [mkSummary 2 (lit "x") (lit "y") 300 301 (lit "t")
                                           (S754_zero false)])
                    (DELETE_summary 2))) 1
  = query_get (one_row ++ [mkSummary 2 (lit "x") (lit "y") 300 301 (lit "t")
                                     (S754_zero false)]) 1.
Proof.
  split.
  - apply (other_records_untouched (Some first_words) one_row
             (POST_summaries (Some (text_only twelve_words)) 300 301) 1).
    + eexists. split; [left; reflexivity | reflexivity].
    + discriminate.
  - apply (other_records_untouched (Some first_words)
             (one_row ++ [mkSummary 2 (lit "x") (lit "y") 300 301 (lit "t")
                                    (S754_zero false)])
             (DELETE_summary 2) 1).
    + eexists. split; [left; reflexivity | reflexivity].
    + discriminate.
Defined.

Lemma update_summary_absent_witness :
  update_summary (Some first_words) one_row 999 (Some (text_only twelve_words)) 200
  = (mkResponse error_page 404, one_row)
  /\
  update_summary (Some first_words) one_row (2 ^ 63) (Some (text_only twelve_words)) 200
  = (mkResponse error_page 500, one_row).
Proof.
  split.
  - apply (update_summary_absent (Some first_words) one_row 999
             (Some (text_only twelve_words)) 200).
    intros [r [[<-|[]] Hid]]. simpl in Hid. discriminate Hid.
  - apply (update_summary_absent (Some first_words) one_row (2 ^ 63)
             (Some (text_only twelve_words)) 200).
    intros [r [[<-|[]] Hid]]. vm_compute in Hid. discriminate Hid.
Defined.

Lemma update_summary_committed_witness :
  exists old row,
    query_get one_row 1 = Some old /\
    fst (update_summary (Some first_words) one_row 1
           (Some (title_only (lit "Numbers"))) 200)
    = mkResponse (jsonify (to_dict row)) 200 /\
    query_get (snd (update_summary (Some first_words) one_row 1
                      (Some (title_only (lit "Numbers"))) 200)) 1 = Some row /\
    id row = 1 /\
    created_at row = created_at old /\
    updated_at row = 200 /\
    title row = lit "Numbers" /\
    (original_text row = original_text old /\
     summary_text row = summary_text old /\
     compression_ratio row = compression_ratio old) /\
    map id (snd (update_summary (Some first_words) one_row 1
                   (Some (title_only (lit "Numbers"))) 200))
    = map id one_row.
Proof.
  apply (update_summary_committed (Some first_words) one_row 1
           (title_only (lit "Numbers")) 200).
  - apply surjective_pairing.
  - vm_compute. reflexivity.
Defined.

Lemma failed_request_changes_nothing_witness :
  snd (handle (Some provider_down) one_row
         (PUT_summary 1 (Some (mkBody (Some twelve_words) None None
                                      (Some (lit "Numbers")))) 200))
  = one_row.
Proof.
  apply (failed_request_changes_nothing (Some provider_down) one_row
           (PUT_summary 1 (Some (mkBody (Some twelve_words) None None
                                        (Some (lit "Numbers")))) 200)).
  - vm_compute. discriminate.
  - vm_compute. discriminate.
Defined.

Lemma delete_summary_removes_one_witness :
  exists gone tbl',
    delete_summary one_row 1
    = (mkResponse
         (jsonify (JObj [("message", JStr (lit "Summary deleted successfully"))]%string))
         200,
       tbl') /\
    In gone one_row /\
    id gone = 1 /\
    Permutation one_row (gone :: tbl') /\
    S (List.length tbl') = List.length one_row.
Proof.
  apply (delete_summary_removes_one one_row 1).
  - simpl. constructor; [intros [] | constructor].
  - eexists. split; [left; reflexivity | reflexivity].
Defined.

Lemma get_summaries_newest_at_head_witness :
  exists doc items,
    content (fst (create_summary (Some first_words) one_row
                    (Some (text_only twelve_words)) 300 301))
    = jsonify doc /\
    get_summaries one_row = mkResponse (jsonify (JArr items)) 200 /\
    get_summaries (snd (create_summary (Some first_words) one_row
                          (Some (text_only twelve_words)) 300 301))
    = mkResponse (jsonify (JArr (doc :: items))) 200.
Proof.
  apply (get_summaries_newest_at_head (Some first_words) one_row
           (Some (text_only twelve_words)) 300 301).
  - intros r [<-|[]]. reflexivity.
  - apply surjective_pairing.
  - vm_compute. reflexivity.
Defined.

Lemma update_summary_error_iff_witness :
  status (fst (update_summary (Some first_words) one_row 1
                 (Some (text_only (lit "   "))) 200)) = 500
  /\
  status (fst (update_summary (Some first_words) one_row 1
                 (Some (mkBody (Some (lit "a b c")) None None (Some [0xDC00%N])))
                 200)) = 500
  /\
  status (fst (update_summary (Some first_words) one_row 1
                 (Some (text_only (lit "a b c"))) 200)) <> 500.
Proof.
  split; [|split].
  - apply (proj2 (update_summary_error_iff (Some first_words) one_row 1
                    (mkSummary 1 twelve_words (lit "one two three four five ") 100 101
                       (lit "Untitled") (S754_finite false 5864531139766518 (-47)))
                    (text_only (lit "   ")) (lit "   ") 200
                    eq_refl eq_refl eq_refl eq_refl eq_refl)).
    right. left. reflexivity.
  - apply (proj2 (update_summary_error_iff (Some first_words) one_row 1
                    (mkSummary 1 twelve_words (lit "one two three four five ") 100 101
                       (lit "Untitled") (S754_finite false 5864531139766518 (-47)))
                    (mkBody (Some (lit "a b c")) None None (Some [0xDC00%N]))
                    (lit "a b c") 200
                    eq_refl eq_refl eq_refl eq_refl eq_refl)).
    right. right. exists (lit "a b c ").
    split; [vm_compute; reflexivity|]. right. right. reflexivity.
  - intros H.
    apply (proj1 (update_summary_error_iff (Some first_words) one_row 1
                    (mkSummary 1 twelve_words (lit "one two three four five ") 100 101
                       (lit "Untitled") (S754_finite false 5864531139766518 (-47)))
                    (text_only (lit "a b c")) (lit "a b c") 200
                    eq_refl eq_refl eq_refl eq_refl eq_refl)) in H.
    destruct H as [[e He]|[Hzero|(g & Hg & Hbad)]].
    + vm_compute in He. discriminate He.
    + vm_compute in Hzero. discriminate Hzero.
    + vm_compute in Hg. inversion Hg; subst g.
      destruct Hbad as [Hbad|[Hbad|Hbad]]; vm_compute in Hbad; discriminate Hbad.
Defined.

(* ================================================================= *)
(** ** Absent and present ids, and an empty summary *)

Section Lookups.

Variable summarizer : option pipeline.

(** X15. After a delete that answered 200 the id is gone for writes too:
    an update of it and a second delete find no record, answer 404 (the
    id of a record the store held fits its key; 500 is the answer for an
    id that does not fit) and store nothing. *)
Theorem writes_after_delete_not_found :
  forall (tbl : table) (summary_id : Z) (resp : response) (tbl' : table),
    delete_summary tbl summary_id = (resp, tbl') ->
    status resp = 200 ->
    (forall data now,
        update_summary summarizer tbl' summary_id data now
        = (mkResponse error_page (if fits summary_id then 404 else 500), tbl'))
    /\
    delete_summary tbl' summary_id
    = (mkResponse error_page (if fits summary_id then 404 else 500), tbl').
Proof.
  intros tbl summary_id resp tbl' H Hst. unfold delete_summary in H.
  destruct (query_get tbl summary_id) as [gone|] eqn:Eget.
  2: { rewrite (get_or_404_absent _ _ Eget) in H.
       destruct (fits summary_id); other_status H Hst. }
  rewrite (get_or_404_found _ _ _ Eget) in H.
  inversion H; subst. clear H.
  pose proof (query_get_some _ _ _ Eget) as [_ Hid].
  assert (Hgone : query_get (commit_delete tbl gone) summary_id = None).
  { rewrite query_get_commit_delete, Hid, Z.eqb_refl. reflexivity. }
  split.
  - intros data now. unfold update_summary. rewrite (get_or_404_absent _ _ Hgone).
    now destruct (fits summary_id).
  - unfold delete_summary. rewrite (get_or_404_absent _ _ Hgone).
    now destruct (fits summary_id).
Qed.

(** X16. Fetching an id answers 200 exactly when a stored record has it,
    and then with the document of a stored record of that id. *)
Theorem get_summary_found_iff :
  forall (tbl : table) (summary_id : Z),
    (status (get_summary tbl summary_id) = 200 <-> stored tbl summary_id)
    /\
    (stored tbl summary_id ->
     exists r,
       In r tbl /\ id r = summary_id /\
       get_summary tbl summary_id = mkResponse (jsonify (to_dict r)) 200).
Proof.
  intros tbl summary_id. unfold get_summary.
  destruct (query_get tbl summary_id) as [r|] eqn:Eget.
  - rewrite (get_or_404_found _ _ _ Eget).
    pose proof (query_get_some _ _ _ Eget) as [Hin Hid].
    split; [split; [intros _; now exists r | reflexivity]|].
    intros _. exists r. repeat split; assumption.
  - rewrite (get_or_404_absent _ _ Eget).
    apply query_get_none in Eget.
    split; [|contradiction].
    destruct (fits summary_id); simpl; split; try discriminate; contradiction.
Qed.

(** Whitespace is no surrogate, so a text without a word encodes. *)
Lemma isspace_not_surrogate c : isspace c = true -> is_surrogate c = false.
Proof.
  unfold isspace, is_surrogate. intros H.
  destruct (N.leb_spec 0xD800 c) as [Hlo|Hlo]; [|reflexivity].
  destruct (N.leb_spec c 0xDFFF) as [Hhi|Hhi]; [|reflexivity].
  exfalso. revert H.
  repeat match goal with
         | |- context [N.leb ?a ?b] => destruct (N.leb_spec a b); try lia
         | |- context [N.eqb ?a ?b] => destruct (N.eqb_spec a b); try lia
         end; simpl; discriminate.
Qed.

Lemma wordless_encodable s : word_count s = 0 -> encodable s = true.
Proof.
  unfold word_count. intros H.
  assert (Hz : word_starts true s = O) by lia. clear H.
  induction s as [|c s IH]; simpl in *; [reflexivity|].
  destruct (isspace c) eqn:E; [|discriminate Hz].
  rewrite (isspace_not_surrogate c E). simpl. now apply IH.
Qed.

(** X17. When the provider returns a summary without a word for a text
    that create accepts and the store can encode, as it can the title,
    the record is stored with a compression ratio of 0.0. *)
Theorem create_summary_empty_summary :
  forall (tbl : table) (d : body) (text generated_summary : str)
         (t_created t_updated : datetime),
    j_text d = Some text ->
    10 <= word_count text ->
    call summarizer text (dict_get (j_max_length d) 130) (dict_get (j_min_length d) 30)
    = Return generated_summary ->
    word_count generated_summary = 0 ->
    encodable text = true ->
    encodable (dict_get (j_title d) (lit "Untitled")) = true ->
    exists row,
      create_summary summarizer tbl (Some d) t_created t_updated
      = (mkResponse (jsonify (to_dict row)) 201, tbl ++ [row]) /\
      summary_text row = generated_summary /\
      compression_ratio row = S754_zero false.
Proof.
  intros tbl d text generated_summary t_created t_updated Htext Hwords Hcall Hempty
         Henc_text Henc_title.
  assert (Hratio : ratio_of generated_summary text = Return (S754_zero false)).
  { unfold ratio_of. rewrite !len_split, Hempty.
    destruct (word_count text) as [|p|p] eqn:E; try lia. reflexivity. }
  unfold create_summary. rewrite Htext, len_split.
  assert (Hge : (word_count text <? 10) = false) by (apply Z.ltb_ge; exact Hwords).
  rewrite Hge, Hcall. simpl. rewrite Hratio. simpl.
  destruct (insert_cases tbl text generated_summary
              (dict_get (j_title d) (lit "Untitled")) (S754_zero false)
              t_created t_updated)
    as [(_ & _ & _ & Hins)|[Hbad _]].
  - rewrite Hins. eexists. repeat split.
  - exfalso. pose proof (wordless_encodable _ Hempty).
    destruct Hbad as [Hbad|[Hbad|Hbad]]; congruence.
Qed.

End Lookups.

Lemma writes_after_delete_not_found_witness :
  update_summary (Some first_words) (snd (delete_summary one_row 1)) 1
    (Some (text_only twelve_words)) 200
  = (mkResponse error_page 404, snd (delete_summary one_row 1))
  /\
  delete_summary (snd (delete_summary one_row 1)) 1
  = (mkResponse error_page 404, snd (delete_summary one_row 1)).
Proof.
  destruct (writes_after_delete_not_found (Some first_words) one_row 1
              (fst (delete_summary one_row 1)) (snd (delete_summary one_row 1))
              (surjective_pairing _) eq_refl) as [Hupdate Hdelete].
  split; [apply Hupdate | exact Hdelete].
Defined.

Lemma get_summary_found_iff_witness :
  exists r,
    In r one_row /\ id r = 1 /\
    get_summary one_row 1 = mkResponse (jsonify (to_dict r)) 200.
Proof.
  apply (proj2 (get_summary_found_iff one_row 1)).
  eexists. split; [left; reflexivity | reflexivity].
Defined.

(** A provider that answers with blanks. *)
Lemma create_summary_empty_summary_witness :
  exists row,
    create_summary (Some (fun _ _ _ => Return (lit "  "))) one_row
      (Some (text_only twelve_words)) 300 301
    = (mkResponse (jsonify (to_dict row)) 201, one_row ++ [row]) /\
    summary_text row = lit "  " /\
    compression_ratio row = S754_zero false.
Proof.
  apply (create_summary_empty_summary (Some (fun _ _ _ => Return (lit "  "))) one_row
           (text_only twelve_words) twelve_words (lit "  ") 300 301).
  - reflexivity.
  - vm_compute. discriminate.
  - reflexivity.
  - reflexivity.
  - vm_compute. reflexivity.
  - vm_compute. reflexivity.
Defined.
